(** * undock-compose: unRAID Docker template to Compose translation

    A shallow embedding of [undocker/main.py] (class [UnDocker]) and the
    properties of its translation logic.  Python exceptions are modelled by
    an error monad, dictionaries by finite maps, and the parsed XML template
    by a tree of elements. *)

From Stdlib Require Import ZArith Ascii String.
From stdpp Require Import gmap strings list fin_maps.

Local Open Scope Z_scope.

(** ** Exceptions *)

(** The exceptions the translation can raise.  [SystemExit] is what
    [argparse] raises through [parser.error] and [--help]. *)
Inductive exn : Set :=
  | AttributeError
  | TypeError
  | ValueError
  | NameError
  | IndexError
  | SystemExit.

Inductive result (A : Type) : Type :=
  | Ok (a : A)
  | Raise (e : exn).
Arguments Ok {A} a.
Arguments Raise {A} e.

#[global] Instance result_ret : MRet result := @Ok.
#[global] Instance result_bind : MBind result := λ A B f m,
  match m with
  | Ok a => f a
  | Raise e => Raise e
  end.

#[global] Instance result_fmap : FMap result := λ A B f m,
  match m with
  | Ok a => Ok (f a)
  | Raise e => Raise e
  end.

Definition raises {A} (m : result A) : Prop := ∃ e, m = Raise e.

(** ** The fragment of Python's [str], [int] and truthiness that the
    program uses.  A string is a sequence of characters with codes below
    256, the first 256 code points of Unicode. *)
Module Py.

(** [bool(x)] for [x : Optional[str]]: [None] and [""] are falsy. *)
Definition truthy (o : option string) : bool :=
  match o with
  | Some (String _ _) => true
  | _ => false
  end.

(** [str(x)], and the f-string field [{x}], for [x : Optional[str]]. *)
Definition str (o : option string) : string := default "None" o.

(** [s.replace(old, new)]: the occurrences of [old] are found left to
    right without overlap; [skip] counts the characters of a matched
    occurrence still to be dropped. *)
Fixpoint replace_go (old new s : string) (skip : nat) : string :=
  match s with
  | "" => ""
  | String c s' =>
      match skip with
      | S k => replace_go old new s' k
      | O =>
          if String.prefix old s
          then new +:+ replace_go old new s' (String.length old - 1)
          else String c (replace_go old new s' 0)
      end
  end.

(** With an empty [old], [new] is put before every character and at the
    end. *)
Fixpoint intersperse (new s : string) : string :=
  match s with
  | "" => new
  | String c s' => new +:+ String c (intersperse new s')
  end.

Definition replace (old new s : string) : string :=
  match old with
  | "" => intersperse new s
  | _ => replace_go old new s 0
  end.

(** The code of a character. *)
Definition ord (c : ascii) : Z := Z.of_N (N_of_ascii c).

(** The white space [int] skips around a literal: the characters 9 to 13
    and the space, which [Py_ISSPACE] holds, and the two white space
    characters above 127, next line (133) and no-break space (160), which
    [int] turns into spaces first. *)
Definition isspace (c : ascii) : bool :=
  (9 <=? ord c) && (ord c <=? 13) || (ord c =? 32)
  || (ord c =? 133) || (ord c =? 160).

(** White space for [str.split()], that is [str.isspace]: the same and the
    four separators 28 to 31. *)
Definition issplit (c : ascii) : bool :=
  isspace c || (28 <=? ord c) && (ord c <=? 31).

(** [sys.int_info.default_max_str_digits], the number of digits past which
    [int] refuses a literal. *)
Definition max_str_digits : nat := 4300.

(** The value of a decimal digit. *)
Definition digit (c : ascii) : option Z :=
  if (ord "0" <=? ord c) && (ord c <=? ord "9")
  then Some (ord c - ord "0")
  else None.

Fixpoint lstrip (s : string) : string :=
  match s with
  | String c s' => if isspace c then lstrip s' else s
  | "" => ""
  end.

(** The value of a literal of [n] digits, unless they are too many. *)
Definition within_limit (n : nat) (acc : Z) : option Z :=
  if (n <=? max_str_digits)%nat then Some acc else None.

(** The digits of a decimal literal, after the sign.  [acc] is the value
    read so far, [n] the number of digits read, and [prev_us] tells that
    the previous character was an underscore: underscores may only stand
    alone between two digits.  The literal ends at the first character
    that is neither; what is left must be white space. *)
Fixpoint digits (s : string) (acc : Z) (prev_us : bool) (n : nat) : option Z :=
  match s with
  | "" => if prev_us then None else within_limit n acc
  | String c s' =>
      match digit c with
      | Some d => digits s' (10 * acc + d) false (S n)
      | None =>
          if Ascii.eqb c "_"
          then (if prev_us then None else digits s' acc true n)
          else if prev_us then None
          else match lstrip s with "" => within_limit n acc | _ => None end
      end
  end.

(** [int(s)] on a string, base ten ([PyLong_FromString]): white space, an
    optional sign, at least one digit and at most [max_str_digits], white
    space.  [None] stands for the [ValueError]. *)
Definition int_of_string (s : string) : option Z :=
  let body (t : string) : option Z :=
    match t with
    | String c _ =>
        match digit c with
        | Some _ => digits t 0 false 0
        | None => None
        end
    | "" => None
    end in
  match lstrip s with
  | String "+" t => body t
  | String "-" t => Z.opp <$> body t
  | t => body t
  end.

(** [int(x)] for [x : Optional[str]]: [int(None)] is a [TypeError], a
    string that is not a literal a [ValueError]. *)
Definition int (o : option string) : result Z :=
  match o with
  | None => Raise TypeError
  | Some s =>
      match int_of_string s with
      | Some z => Ok z
      | None => Raise ValueError
      end
  end.

(** [s.split()]: the maximal runs of characters that are not white
    space.  [cur] holds the current run, reversed. *)
Fixpoint split_go (cur : option string) (s : string) : list string :=
  match s with
  | "" => option_list (String.rev <$> cur)
  | String c s' =>
      if issplit c
      then option_list (String.rev <$> cur) ++ split_go None s'
      else split_go (Some (String c (default "" cur))) s'
  end.

Definition split : string → list string := split_go None.

End Py.

(** ** The parsed template

    An element of the tree [xml.etree.ElementTree] builds: its tag, its
    attribute dictionary, the text before its first child ([None] when
    there is none) and its children, in document order. *)
#[warnings="-register-all"]
Inductive Element : Type :=
  mkElement {
    tag : string;
    attrib : gmap string string;
    text : option string;
    children : list Element
  }.

(** [Element.find(path)] and [Element.findall(path)] for a path that is a
    plain tag name, as at every call site: the children of the element, and
    only they, are searched in document order. *)
Definition find (path : string) (e : Element) : option Element :=
  head (filter (λ c, tag c = path) (children e)).

Definition findall (path : string) (e : Element) : list Element :=
  filter (λ c, tag c = path) (children e).

(** [x.text] where [x] is the result of [find]: on [None] the attribute
    access raises. *)
Definition dot_text (x : option Element) : result (option string) :=
  match x with
  | Some e => Ok (text e)
  | None => Raise AttributeError
  end.

(** [x.replace(old, new)] where [x : Optional[str]]. *)
Definition dot_replace (x : option string) (old new : string) : result string :=
  match x with
  | Some s => Ok (Py.replace old new s)
  | None => Raise AttributeError
  end.

(** ** Dictionaries

    Keys and values are [Optional[str]]: [attrib.get] may hand [None] to
    either side of an item assignment. *)
Abbreviation dict := (gmap (option string) (option string)).

(** [d[k] = v] *)
Definition setitem (k v : option string) (d : dict) : dict := <[k:=v]> d.

(** [d.update(other)] *)
Definition update (other d : dict) : dict := other ∪ d.

(** A dictionary display [{k1: v1, ..., kn: vn}] of string keys: the items
    are stored from left to right. *)
Definition display (items : list (string * option string)) : dict :=
  foldl (λ d kv, setitem (Some kv.1) kv.2 d) ∅ items.

(** ** The class [UnDocker] *)

Record UnDocker : Type :=
  mkUnDocker {
    tree : Element;
    yaml : string;
    config_labels : bool
  }.

(** [UnDocker._tag] *)
Definition _tag (self : UnDocker) (tag : string) : result string :=
  t ← dot_text (find tag (tree self));
  if Py.truthy t
  then t' ← dot_text (find tag (tree self)); Ok (Py.str t')
  else Ok "".

(** [UnDocker._unraid_labels] *)
Definition _unraid_labels (self : UnDocker) : result dict :=
  registry ← _tag self "Registry";
  shell ← _tag self "Shell";
  support ← _tag self "Support";
  project ← _tag self "Project";
  overview ← _tag self "Overview";
  category ← _tag self "Category";
  icon ← _tag self "Icon";
  webui ← _tag self "WebUI";
  template ← _tag self "TemplateURL";
  installed ← _tag self "DateInstalled";
  donate_text ← _tag self "DonateText";
  donate_link ← _tag self "DonateLink";
  requires ← _tag self "Requires";
  Ok (display [
    ("net.unraid.docker.registry", Some registry);
    ("net.unraid.docker.shell", Some shell);
    ("net.unraid.docker.support", Some support);
    ("net.unraid.docker.project", Some project);
    ("net.unraid.docker.overview", Some overview);
    ("net.unraid.docker.category", Some category);
    ("net.unraid.docker.icon", Some icon);
    ("net.unraid.docker.webui", Some webui);
    ("net.unraid.docker.managed", Some "compose");
    ("net.unraid.docker.template", Some template);
    ("net.unraid.docker.installed", Some installed);
    ("net.unraid.docker.donate.text", Some donate_text);
    ("net.unraid.docker.donate.link", Some donate_link);
    ("net.unraid.docker.requires", Some requires)
  ]).

(** [UnDocker._unraid_environment] *)
Definition _unraid_environment (self : UnDocker) : result dict :=
  hostname ← _tag self "Name";
  containername ← _tag self "Name";
  Ok (display [
    ("TZ", Some "UTC");
    ("HOST_OS", Some "Unraid");
    ("HOST_HOSTNAME", Some hostname);
    ("HOST_CONTAINERNAME", Some containername)
  ]).

(** ** The fragment of [argparse] that [_extra_params] uses

    A parser is the table of its option strings with their actions.  What
    follows is [add_argument] in the way [_extra_params] calls it, and
    [parse_known_args] for a parser of options that take one value:
    option strings may be abbreviated, [--opt=value] gives the value in
    place, a token [--] ends the options, and [parser.error] and the help
    action leave through [SystemExit]. *)
Module argparse.

Inductive action : Set := help | store (dest : string).

Definition ArgumentParser : Type := list (string * action).

(** [ArgumentParser()]: the help option alone. *)
Definition new : ArgumentParser := [("-h", help); ("--help", help)].

(** [x in self.prefix_chars], a test on substrings of ["-"]. *)
Definition in_prefix_chars (x : string) : bool :=
  bool_decide (x = "") || bool_decide (x = "-").

(** [parser.add_argument(flags, dest=dest)], the list [flags] being the one
    positional argument of the call.  [add_argument] tests [args[0][0]],
    here the first flag: unless it is a prefix character, the call is
    taken to declare a positional argument, and [dest] given with one is a
    [ValueError].  Otherwise the list is taken for an option string and
    looked up in a dictionary, a [TypeError] as lists are not hashable.
    The call returns in neither case. *)
Definition add_argument (flags : list string) (dest : string)
    (parser : ArgumentParser) : result ArgumentParser :=
  match flags with
  | [] => Raise IndexError
  | flag :: _ =>
      if in_prefix_chars flag then Raise TypeError else Raise ValueError
  end.

(** The namespace [parse_known_args] returns: the attributes with their
    values, [None] being the default. *)
Definition Namespace : Type := list (string * option string).

Fixpoint setattr (name : string) (v : option string) (ns : Namespace)
    : Namespace :=
  match ns with
  | [] => [(name, v)]
  | (n, w) :: ns' =>
      if bool_decide (n = name) then (n, v) :: ns'
      else (n, w) :: setattr name v ns'
  end.

Definition hasattr (name : string) (ns : Namespace) : bool :=
  bool_decide (name ∈ ns.*1).

(** [sorted] on items with distinct names. *)
Fixpoint insert_item (kv : string * option string) (l : Namespace)
    : Namespace :=
  match l with
  | [] => [kv]
  | kv' :: l' =>
      if String.leb kv.1 kv'.1 then kv :: l else kv' :: insert_item kv l'
  end.

(** [Namespace._get_kwargs()]: the attributes sorted by name. *)
Definition _get_kwargs (ns : Namespace) : list (string * option string) :=
  foldr insert_item [] ns.

(** [s.split("=", 1)] when [s] holds an ["="]. *)
Fixpoint split_eq (s : string) : option (string * string) :=
  match s with
  | "" => None
  | String c s' =>
      if Ascii.eqb c "="
      then Some ("", s')
      else '(l, r) ← split_eq s'; Some (String c l, r)
  end.

Fixpoint all_digits (s : string) : bool :=
  match s with
  | "" => true
  | String c s' => bool_decide (is_Some (Py.digit c)) && all_digits s'
  end.

(** The digits a string starts with are dropped. *)
Fixpoint drop_digits (s : string) : string :=
  match s with
  | String c s' => if bool_decide (is_Some (Py.digit c)) then drop_digits s' else s
  | "" => ""
  end.

(** [_negative_number_matcher], the pattern [^-\d+$|^-\d*\.\d+$]. *)
Definition negative_number (s : string) : bool :=
  match s with
  | String "-" (String c r as t) =>
      all_digits t
      || match drop_digits t with
         | String "." (String _ _ as f) => all_digits f
         | _ => false
         end
  | _ => false
  end.

(** How [_parse_optional] reads a token. *)
Inductive parsed : Set :=
  | Positional
  | Optional (a : action) (explicit_arg : option string)
  | UnknownOptional
  | Ambiguous.

Section parse.
Variable parser : ArgumentParser.

(** [_get_option_tuples]: the option strings the token abbreviates. *)
Definition _get_option_tuples (s : string) : list (action * option string) :=
  match s with
  | String "-" (String "-" _) =>
      let '(option_prefix, explicit_arg) :=
        match split_eq s with
        | Some (l, r) => (l, Some r)
        | None => (s, None)
        end in
      omap (λ oa : string * action,
              if String.prefix option_prefix oa.1
              then Some (oa.2, explicit_arg) else None)
           parser
  | String "-" (String c r) =>
      omap (λ oa : string * action,
              if bool_decide (oa.1 = String "-" (String c ""))
              then Some (oa.2, Some r)
              else if String.prefix s oa.1
              then Some (oa.2, None) else None)
           parser
  | _ => []
  end.

Definition lookup_option (s : string) : option action :=
  snd <$> head (filter (λ oa : string * action, oa.1 = s) parser).

Definition _parse_optional (s : string) : parsed :=
  match s with
  | "" => Positional
  | String c r =>
      if negb (Ascii.eqb c "-") then Positional
      else match lookup_option s with
      | Some a => Optional a None
      | None =>
          match r with
          | "" => Positional
          | _ =>
              match (split_eq s ≫= λ '(l, e),
                       (λ a, Optional a (Some e)) <$> lookup_option l) with
              | Some p => p
              | None =>
                  match _get_option_tuples s with
                  | [(a, e)] => Optional a e
                  | _ :: _ :: _ => Ambiguous
                  | [] =>
                      if negative_number s then Positional else UnknownOptional
                  end
              end
          end
      end
  end.

(** The first pass over the tokens: every token before [--] is read by
    [_parse_optional], and an ambiguous one is an error at once. *)
Fixpoint ambiguous (args : list string) : bool :=
  match args with
  | [] => false
  | s :: args' =>
      if bool_decide (s = "--") then false
      else match _parse_optional s with
           | Ambiguous => true
           | _ => ambiguous args'
           end
  end.

(** The second pass, up to the first [--], after which nothing is an
    option.  An option without a value in place takes the next token,
    which must be an argument; tokens that belong to no option are the
    extras, which [_extra_params] drops. *)
Fixpoint consume (args : list string) (ns : Namespace) : result Namespace :=
  match args with
  | [] => Ok ns
  | s :: args' =>
      if bool_decide (s = "--") then Ok ns
      else match _parse_optional s with
      | Positional | UnknownOptional => consume args' ns
      | Ambiguous => Raise SystemExit
      | Optional help _ => Raise SystemExit
      | Optional (store dest) (Some v) => consume args' (setattr dest (Some v) ns)
      | Optional (store dest) None =>
          match args' with
          | v :: args'' =>
              if bool_decide (v = "--") then Raise SystemExit
              else match _parse_optional v with
              | Positional => consume args'' (setattr dest (Some v) ns)
              | _ => Raise SystemExit
              end
          | [] => Raise SystemExit
          end
      end
  end.

(** The namespace starts with the default of every destination. *)
Definition defaults : Namespace :=
  foldl (λ ns (oa : string * action),
           match oa.2 with
           | store dest => if hasattr dest ns then ns else setattr dest None ns
           | help => ns
           end) [] parser.

Definition parse_known_args (args : list string) : result Namespace :=
  if ambiguous args then Raise SystemExit else consume args defaults.

End parse.

End argparse.

(** [known_args], line 100. *)
Definition known_args : list (list string * string) :=
  [(["--restart"], "restart"); (["--net"; "--network"], "networks")].

(** The global name [args], which [_extra_params] reads: the module binds
    no such name, and a look-up of it raises. *)
Definition args__getattribute__ (name : string) : result string :=
  Raise NameError.

(** The loop of lines 106 to 110 over the attributes of the namespace. *)
Definition extra_params_loop (kwargs : list (string * option string))
    : result (gmap string string) :=
  foldl (λ acc (attr : string * option string),
           extra_params ← acc;
           if Py.truthy attr.2
           then key ← args__getattribute__ attr.1;
                Ok (<[key := default "" attr.2]> extra_params)
           else Ok extra_params)
        (Ok ∅) kwargs.

(** [UnDocker._extra_params] *)
Definition _extra_params (params : string) : result (gmap string string) :=
  docker_parser ←
    foldl (λ acc (i : list string * string),
             parser ← acc; argparse.add_argument i.1 i.2 parser)
          (Ok argparse.new) known_args;
  docker_args ← argparse.parse_known_args docker_parser (Py.split params);
  extra_params_loop (argparse._get_kwargs docker_args).

(** ** The Config entries *)

(** An item of the [ports] list. *)
Record port : Set :=
  mkPort { target : Z; published : Z; protocol : string }.

(** The local variables of [_configs]. *)
Record locals : Type :=
  mkLocals {
    ports : list port;
    volumes : list string;
    devices : list string;
    environment : dict;
    labels : dict
  }.

Definition init : locals := mkLocals [] [] [] ∅ ∅.

Definition with_ports (f : list port → list port) (l : locals) : locals :=
  mkLocals (f (ports l)) (volumes l) (devices l) (environment l) (labels l).
Definition with_volumes (f : list string → list string) (l : locals) : locals :=
  mkLocals (ports l) (f (volumes l)) (devices l) (environment l) (labels l).
Definition with_devices (f : list string → list string) (l : locals) : locals :=
  mkLocals (ports l) (volumes l) (f (devices l)) (environment l) (labels l).
Definition with_environment (f : dict → dict) (l : locals) : locals :=
  mkLocals (ports l) (volumes l) (devices l) (f (environment l)) (labels l).
Definition with_labels (f : dict → dict) (l : locals) : locals :=
  mkLocals (ports l) (volumes l) (devices l) (environment l) (f (labels l)).

(** [get(k) == s] *)
Definition is_str (x : option string) (s : string) : bool :=
  bool_decide (x = Some s).

Section config.
Variable config : Element.

(** [get = config.attrib.get] *)
Definition get (k : string) : option string := attrib config !! k.

(** [header], line 126. *)
Definition header : result string :=
  name ← dot_replace (get "Name") " " "_";
  Ok ("net.unraid.docker.config." +:+ name).

(** [value], lines 129 to 132: the effective value of the entry. *)
Definition value : result string :=
  if Py.truthy (text config)
  then dot_replace (text config) "$" "$$"
  else dot_replace (get "Default") "$" "$$".

(** The string appended for a [Path] or a [Devices] entry. *)
Definition mount (value : string) : string :=
  (value +:+ ":" +:+ Py.str (get "Target"))
  +:+ (if Py.truthy (get "Mode") then ":" +:+ Py.str (get "Mode") else "").

(** The item appended for a [Port] entry. *)
Definition port_item (value : string) : result port :=
  t ← Py.int (get "Target");
  p ← Py.int (Some value);
  Ok (mkPort t p (if Py.truthy (get "Mode") then default "" (get "Mode") else "")).

(** The dictionary of lines 166 to 172. *)
Definition extended (header : string) : dict :=
  display [
    (header +:+ ".default", get "Default");
    (header +:+ ".description", get "Description");
    (header +:+ ".display", get "Display");
    (header +:+ ".required", get "Required");
    (header +:+ ".mask", get "Mask")
  ].

(** The five [if]s on [Type], lines 135 to 160. *)
Definition place (value : string) (l : locals) : result locals :=
  l ← (if is_str (get "Type") "Port"
       then item ← port_item value; Ok (with_ports (λ ps, ps ++ [item]) l)
       else Ok l);
  let l := if is_str (get "Type") "Path"
           then with_volumes (λ vs, vs ++ [mount value]) l else l in
  let l := if is_str (get "Type") "Devices"
           then with_devices (λ ds, ds ++ [mount value]) l else l in
  let l := if is_str (get "Type") "Variable"
           then with_environment (setitem (get "Target") (Some value)) l else l in
  let l := if is_str (get "Type") "Label"
           then with_labels (setitem (get "Target") (Some value)) l else l in
  Ok l.

(** One turn of the loop of [_configs]. *)
Definition config_step (config_labels : bool) (l : locals) : result locals :=
  header ← header;
  value ← value;
  l ← place value l;
  Ok (if config_labels then with_labels (update (extended header)) l else l).
End config.

(** The loop of [_configs] over the entries still to be read. *)
Fixpoint configs_loop (config_labels : bool) (configs : list Element)
    (l : locals) : result locals :=
  match configs with
  | [] => Ok l
  | config :: configs' =>
      l' ← config_step config config_labels l;
      configs_loop config_labels configs' l'
  end.

(** The tuple a [return] or an unpacking assignment lists. *)
Definition tuple5 : Type :=
  list port * list string * dict * dict * list string.

(** [UnDocker._configs] *)
Definition _configs (self : UnDocker) : result tuple5 :=
  l ← configs_loop (config_labels self) (findall "Config" (tree self)) init;
  Ok (ports l, volumes l, environment l, labels l, devices l).

(** ** The service *)
Module Service.
(** The dictionary [services] stores under the container's name. *)
Record t : Type :=
  mk {
    container_name : string;
    image : string;
    privileged : bool;
    ports : list port;
    volumes : list string;
    environment : dict;
    labels : dict;
    devices : list string;
    networks : list string;
    cpuset : string;
    command : string
  }.
End Service.

(** [UnDocker.services]: the single key of the dictionary returned and the
    service stored under it. *)
Definition services (self : UnDocker) : result (string * Service.t) :=
  '(ports, volumes, environment, labels, devices) ← _configs self;
  unraid_labels ← _unraid_labels self;
  let labels := update unraid_labels labels in
  unraid_environment ← _unraid_environment self;
  let environment := update unraid_environment environment in
  key ← _tag self "Name";
  container_name ← _tag self "Name";
  image ← _tag self "Repository";
  privileged ← _tag self "Privileged";
  network ← _tag self "Network";
  cpuset ← _tag self "CPUset";
  command ← _tag self "PostArgs";
  Ok (key,
      Service.mk container_name image
        (negb (bool_decide (privileged = "false")))
        ports volumes environment labels devices
        [network] cpuset command).

(** ** Sample templates *)
Module Sample.

Definition leaf (tag : string) (text : option string) : Element :=
  mkElement tag ∅ text [].

Definition entry (attrs : list (string * string)) (text : option string)
    : Element :=
  mkElement "Config" (list_to_map attrs) text [].

Definition template (children : list Element) (config_labels : bool)
    : UnDocker :=
  mkUnDocker (mkElement "Container" ∅ None children)
    "docker-compose.yaml" config_labels.

(** The singular tags [services] reads, but for [Privileged]. *)
Definition tags : list Element :=
  [ leaf "Name" (Some "app");
    leaf "Repository" (Some "vendor/app:latest");
    leaf "Registry" (Some "https://hub.docker.com/r/vendor/app");
    leaf "Network" (Some "proxynet");
    leaf "Shell" (Some "sh");
    leaf "Support" None;
    leaf "Project" (Some "");
    leaf "Overview" (Some "An application.");
    leaf "Category" (Some "Tools:");
    leaf "WebUI" (Some "http://[IP]:[PORT:8080]/");
    leaf "TemplateURL" None;
    leaf "Icon" None;
    leaf "ExtraParams" (Some "--restart always");
    leaf "PostArgs" None;
    leaf "CPUset" None;
    leaf "DateInstalled" (Some "1650000000");
    leaf "DonateText" None;
    leaf "DonateLink" None;
    leaf "Requires" None ].

Definition port_entry : Element :=
  entry [("Name", "Web UI"); ("Target", "8080"); ("Default", "8080");
         ("Mode", "tcp"); ("Type", "Port")] (Some "8081").

Definition path_entry : Element :=
  entry [("Name", "Data"); ("Target", "/data"); ("Default", "/data");
         ("Type", "Path")] None.

Definition device_entry : Element :=
  entry [("Name", "GPU"); ("Target", "/dev/dri"); ("Default", "");
         ("Mode", "rwm"); ("Type", "Devices")] (Some "/dev/dri").

Definition variable_entry : Element :=
  entry [("Name", "Home"); ("Target", "APP_HOME"); ("Default", "/root");
         ("Type", "Variable")] (Some "$HOME").

Definition label_entry : Element :=
  entry [("Name", "Tier"); ("Target", "tier"); ("Default", "none");
         ("Type", "Label")] (Some "gold").

Definition other_entry : Element :=
  entry [("Name", "Note"); ("Target", "x"); ("Default", "d");
         ("Description", "A note"); ("Type", "Slider")] None.

Definition no_default_entry : Element :=
  entry [("Name", "Key"); ("Target", "KEY"); ("Type", "Variable")] None.

Definition entries : list Element :=
  [port_entry; path_entry; device_entry; variable_entry; label_entry;
   other_entry].

Definition full (privileged : option string) (config_labels : bool)
    : UnDocker :=
  template (tags ++ leaf "Privileged" privileged :: entries) config_labels.

Definition without_privileged : UnDocker := template (tags ++ entries) false.

(** Entries whose targets are keys of the synthesized mappings. *)
Definition managed_entry : Element :=
  entry [("Name", "Managed"); ("Target", "net.unraid.docker.managed");
         ("Default", ""); ("Type", "Label")] (Some "manual").

Definition tz_entry : Element :=
  entry [("Name", "Time zone"); ("Target", "TZ"); ("Default", "UTC");
         ("Type", "Variable")] (Some "Europe/Paris").

Definition colliding : UnDocker :=
  template (tags ++ [leaf "Privileged" None; managed_entry; tz_entry]) false.

Definition missing_default : UnDocker :=
  template (tags ++ [leaf "Privileged" None; port_entry; no_default_entry])
    false.

(** A port entry whose target is no integer literal. *)
Definition bad_port_entry : Element :=
  entry [("Name", "Admin"); ("Target", "http"); ("Default", "80");
         ("Type", "Port")] None.

(** The parser [known_args] describes, had its flags been added as option
    strings. *)
Definition parser : argparse.ArgumentParser :=
  argparse.new
  ++ [("--restart", argparse.store "restart");
      ("--net", argparse.store "networks");
      ("--network", argparse.store "networks")].

End Sample.

(** ** The statements of the specification *)

(** The values a Python tuple may hold here. *)
Inductive pyobj : Type :=
  | PyPorts (ps : list port)
  | PyStrs (ss : list string)
  | PyDict (d : dict).

(** The items of the tuple [_configs] returns, by position. *)
Definition items (t : tuple5) : list pyobj :=
  let '(a, b, c, d, e) := t in [PyPorts a; PyStrs b; PyDict c; PyDict d; PyStrs e].

(** The tuple as the specification orders it: ports, volumes, environment,
    devices, labels. *)
Definition spec_order (l : locals) : list pyobj :=
  [PyPorts (ports l); PyStrs (volumes l); PyDict (environment l);
   PyStrs (devices l); PyDict (labels l)].

(** The tuple as the [return] statement orders it. *)
Definition return_order (l : locals) : list pyobj :=
  [PyPorts (ports l); PyStrs (volumes l); PyDict (environment l);
   PyDict (labels l); PyStrs (devices l)].

(** Every character [a] of a string replaced by the string [new], one
    character after the other. *)
Fixpoint subst_char (a : ascii) (new : string) (s : string) : string :=
  match s with
  | "" => ""
  | String c s' =>
      if Ascii.eqb c a
      then new +:+ subst_char a new s'
      else String c (subst_char a new s')
  end.

(** Every ["$"] doubled. *)
Definition double_dollars : string → string := subst_char "$" "$$".

(** Every space turned into an underscore. *)
Definition underscores : string → string := subst_char " " "_".

Fixpoint count_dollars (s : string) : nat :=
  match s with
  | "" => 0%nat
  | String c s' => ((if Ascii.eqb c "$" then 1 else 0) + count_dollars s')%nat
  end.

(** The five label keys of an entry whose header is [h]. *)
Definition extended_keys (h : string) : list (option string) :=
  (λ suffix, Some (h +:+ suffix))
    <$> [".default"; ".description"; ".display"; ".required"; ".mask"].

(** The five suffixes, each with the attribute it copies. *)
Definition extended_attributes : list (string * string) :=
  [(".default", "Default"); (".description", "Description");
   (".display", "Display"); (".required", "Required"); (".mask", "Mask")].

(** The augmentation step of an entry: the labels of lines 164 to 173,
    under the flag. *)
Definition augment (c : Element) (flag : bool) (h : string) (l : locals)
    : locals :=
  if flag then with_labels (update (extended c h)) l else l.

(** The [[:Mode]] part of a volume or device: nothing without a mode. *)
Definition mode_suffix (mode : option string) : string :=
  match mode with
  | Some (String _ _ as m) => ":" +:+ m
  | _ => ""
  end.

(** ** The rest of the class *)

(** The fragment of [os.path] that [__init__] uses, as [posixpath] has
    it. *)
Module os_path.

Definition is_sep (c : ascii) : bool := Ascii.eqb c "/".

(** [p[:p.rfind("/") + 1]]: the string up to its last separator, the
    separator included. *)
Fixpoint head (p : string) : string :=
  match p with
  | "" => ""
  | String c p' =>
      match head p' with
      | "" => if is_sep c then "/" else ""
      | h => String c h
      end
  end.

Fixpoint all_sep (s : string) : bool :=
  match s with
  | "" => true
  | String c s' => is_sep c && all_sep s'
  end.

(** [s.rstrip("/")] *)
Fixpoint rstrip_sep (s : string) : string :=
  match s with
  | "" => ""
  | String c s' =>
      match rstrip_sep s' with
      | "" => if is_sep c then "" else String c ""
      | r => String c r
      end
  end.

Definition dirname (p : string) : string :=
  let h := head p in
  if Py.truthy (Some h) && negb (all_sep h) then rstrip_sep h else h.

Fixpoint endswith_sep (s : string) : bool :=
  match s with
  | "" => false
  | String c "" => is_sep c
  | String _ s' => endswith_sep s'
  end.

(** [os.path.join(a, b)] *)
Definition join (a b : string) : string :=
  if String.prefix "/" b then b
  else if negb (Py.truthy (Some a)) || endswith_sep a then a +:+ b
  else a +:+ "/" +:+ b.

End os_path.

Section init.
(** [ET.parse], the parser of the XML library: the tree of the file at a
    path, or the exception it raises. *)
Variable parse : string → result Element.

(** [UnDocker.__init__] *)
Definition __init__ (template compose : string) (config_labels : bool)
    : result UnDocker :=
  tree ← parse template;
  let yaml :=
    if Py.truthy (Some compose) then compose
    else os_path.join (os_path.dirname compose) "docker-compose.yaml" in
  Ok (mkUnDocker tree yaml config_labels).
End init.

Module Network.
(** The dictionary [networks] stores under the name of the network. *)
Record t : Type := mk { external : bool; name : string }.
End Network.

(** [UnDocker.networks]: the single key of the dictionary returned and the
    network stored under it. *)
Definition networks (self : UnDocker) : result (string * Network.t) :=
  key ← _tag self "Network";
  name ← _tag self "Network";
  Ok (key, Network.mk true name).

(** [UnDocker.compose_version] *)
Definition compose_version : string := "3.7".

(** ** The order of the keys

    A Python [dict] keeps its keys in the order in which they were first
    stored, and [yaml.safe_dump] under [sort_keys=False] writes them in
    that order; the maps above do not record it.  Every dictionary of the
    document is a display of constant keys but [environment] and [labels],
    whose keys the template chooses: the lists below are what [_configs]
    and [services] store in them, store after store. *)

(** The keys stored, each at the place of its first store. *)
Fixpoint insertion_order (ks : list (option string)) : list (option string) :=
  match ks with
  | [] => []
  | k :: ks' => k :: filter (λ k', k' ≠ k) (insertion_order ks')
  end.

(** The keys an entry stores in [labels], lines 159 to 173. *)
Definition label_writes (flag : bool) (c : Element) : list (option string) :=
  (if is_str (get c "Type") "Label" then [get c "Target"] else [])
  ++ (if flag
      then match header c with
           | Ok h => extended_keys h
           | Raise _ => []
           end
      else []).

(** The key an entry stores in [environment], lines 156 and 157. *)
Definition environment_writes (c : Element) : list (option string) :=
  if is_str (get c "Type") "Variable" then [get c "Target"] else [].

(** The keys of the dictionaries of [_unraid_labels] and
    [_unraid_environment], as their displays list them. *)
Definition unraid_labels_keys : list (option string) :=
  Some <$> ["net.unraid.docker.registry"; "net.unraid.docker.shell";
            "net.unraid.docker.support"; "net.unraid.docker.project";
            "net.unraid.docker.overview"; "net.unraid.docker.category";
            "net.unraid.docker.icon"; "net.unraid.docker.webui";
            "net.unraid.docker.managed"; "net.unraid.docker.template";
            "net.unraid.docker.installed"; "net.unraid.docker.donate.text";
            "net.unraid.docker.donate.link"; "net.unraid.docker.requires"].

Definition unraid_environment_keys : list (option string) :=
  Some <$> ["TZ"; "HOST_OS"; "HOST_HOSTNAME"; "HOST_CONTAINERNAME"].

(** The keys of [labels] and of [environment] when [services] returns, in
    the order in which they were stored. *)
Definition labels_order (self : UnDocker) : list (option string) :=
  insertion_order
    ((findall "Config" (tree self) ≫= label_writes (config_labels self))
     ++ unraid_labels_keys).

Definition environment_order (self : UnDocker) : list (option string) :=
  insertion_order
    ((findall "Config" (tree self) ≫= environment_writes)
     ++ unraid_environment_keys).

Module Document.
(** The dictionary [compose] hands to [yaml.safe_dump], with the keys of
    the environment and of the labels of its service in their order. *)
Record t : Type :=
  mk {
    version : string;
    services : string * Service.t;
    networks : string * Network.t;
    environment_keys : list (option string);
    label_keys : list (option string)
  }.
End Document.

Section compose.
(** [yaml.safe_dump] with [sort_keys=False]: the text of a document. *)
Variable safe_dump : Document.t → string.
(** The exception [open(path, "w")] raises where the program runs, if it
    raises one. *)
Variable open_raises : string → option exn.

(** [UnDocker.compose], on the files of the system, given by their
    contents: the file is opened, hence emptied, before the document is
    built, and the [with] statement lets an exception of the body
    through. *)
Definition compose (self : UnDocker) (files : gmap string string)
    : result () * gmap string string :=
  match open_raises (yaml self) with
  | Some e => (Raise e, files)
  | None =>
      let files := <[yaml self := ""]> files in
      match (s ← services self;
             n ← networks self;
             Ok (Document.mk compose_version s n
                   (environment_order self) (labels_order self))) with
      | Ok d => (Ok (), <[yaml self := safe_dump d]> files)
      | Raise e => (Raise e, files)
      end
  end.
End compose.

(** ** Properties of whole runs, stated *)

(** The value an entry yields before the escaping. *)
Definition effective (c : Element) : option string :=
  if Py.truthy (text c) then text c else get c "Default".

(** The entries [_configs] reads without an exception: those with a name
    and a value whose [Target] and value, for a port, are integers. *)
Definition entry_ok (c : Element) : bool :=
  bool_decide (is_Some (get c "Name"))
  && match effective c with
     | None => false
     | Some s =>
         if is_str (get c "Type") "Port"
         then match get c "Target" with
              | Some tg =>
                  bool_decide (is_Some (Py.int_of_string tg))
                  && bool_decide (is_Some (Py.int_of_string (double_dollars s)))
              | None => false
              end
         else true
     end.

(** The characters of a plain tag name: letters, digits, [_] and [-]. *)
Definition name_char (c : ascii) : bool :=
  (48 <=? Py.ord c) && (Py.ord c <=? 57)
  || (65 <=? Py.ord c) && (Py.ord c <=? 90)
  || (97 <=? Py.ord c) && (Py.ord c <=? 122)
  || (Py.ord c =? 95) || (Py.ord c =? 45).

Fixpoint name_chars (s : string) : bool :=
  match s with
  | "" => true
  | String c s' => name_char c && name_chars s'
  end.

(** The paths [find] reads as the name of a tag and nothing else: no
    character of them belongs to the syntax of paths. *)
Definition plain_tag (t : string) : bool := Py.truthy (Some t) && name_chars t.

(** The entry stores something under the label key [k]: it is a [Label]
    entry with target [k], or [k] is one of its five keys. *)
Definition writes_label (c : Element) (k : option string) : bool :=
  is_str (get c "Type") "Label" && bool_decide (get c "Target" = k)
  || match get c "Name" with
     | Some name =>
         bool_decide
           (k ∈ extended_keys
                  ("net.unraid.docker.config." +:+ underscores name))
     | None => false
     end.

(** The tags [services] reads. *)
Definition service_tags : list string :=
  ["Registry"; "Shell"; "Support"; "Project"; "Overview"; "Category";
   "Icon"; "WebUI"; "TemplateURL"; "DateInstalled"; "DonateText";
   "DonateLink"; "Requires"; "Name"; "Repository"; "Privileged";
   "Network"; "CPUset"; "PostArgs"].

(** The items the entries of one type give, in the order of the entries. *)
Definition ports_of (cs : list Element) : list port :=
  omap (λ c,
          if is_str (get c "Type") "Port"
          then match value c with
               | Ok v => match port_item c v with
                         | Ok item => Some item
                         | Raise _ => None
                         end
               | Raise _ => None
               end
          else None) cs.

Definition mounts_of (type : string) (cs : list Element) : list string :=
  omap (λ c,
          if is_str (get c "Type") type
          then match value c with
               | Ok v => Some (mount c v)
               | Raise _ => None
               end
          else None) cs.

(** Every run of ["$"] in a string has an even length; [odd] tells that
    an odd number of them was just read. *)
Fixpoint even_dollars (odd : bool) (s : string) : bool :=
  match s with
  | "" => negb odd
  | String c s' =>
      if Ascii.eqb c "$" then even_dollars (negb odd) s'
      else negb odd && even_dollars false s'
  end.

(** Some character of the string is a space. *)
Fixpoint has_space (s : string) : bool :=
  match s with
  | "" => false
  | String c s' => Ascii.eqb c " " || has_space s'
  end.

(** ** Sample runs *)
Module Run.

Definition no_service : Service.t :=
  Service.mk "" "" false [] [] ∅ ∅ [] [] "" "".

Definition service_of (r : result (string * Service.t)) : Service.t :=
  match r with
  | Ok (_, svc) => svc
  | Raise _ => no_service
  end.

(** The service of the full sample template. *)
Definition full : Service.t :=
  Eval vm_compute in service_of (services (Sample.full None false)).

(** A template with the tags and no entry, and its service. *)
Definition bare : UnDocker :=
  Sample.template (Sample.tags ++ [Sample.leaf "Privileged" None]) true.

Definition bare_service : Service.t :=
  Eval vm_compute in service_of (services bare).

(** A template with two [Name] elements and a nested one. *)
Definition twice : UnDocker :=
  Sample.template
    [mkElement "Labels" ∅ None [Sample.leaf "Name" (Some "nested")];
     Sample.leaf "Name" None;
     Sample.leaf "Name" (Some "second")] false.

End Run.

(** * Properties *)

(** ** The error monad *)

Lemma bind_Ok {A B} (m : result A) (f : A → result B) (b : B) :
  m ≫= f = Ok b → ∃ a, m = Ok a ∧ f a = Ok b.
Proof. destruct m as [a|e]; [eauto | discriminate]. Qed.

Lemma raises_bind {A B} (m : result A) (f : A → result B) :
  raises m → raises (m ≫= f).
Proof. intros [e ->]. by exists e. Qed.

(** Splits a hypothesis [x ← m; k = Ok b] into its steps. *)
Ltac bind_inv H :=
  repeat
    (let a := fresh "a" in
     let Ha := fresh "H" a in
     apply bind_Ok in H as (a & Ha & H); simpl in H).

(** ** The Python fragment on samples *)

Lemma int_of_string_samples :
  Py.int_of_string "8080" = Some 8080
  ∧ Py.int_of_string " +8_0 " = Some 80
  ∧ Py.int_of_string "-007" = Some (-7)
  ∧ Py.int_of_string "" = None
  ∧ Py.int_of_string "80a" = None
  ∧ Py.int_of_string "8__0" = None
  ∧ Py.int_of_string "_80" = None
  ∧ Py.int_of_string "80_" = None
  ∧ Py.int_of_string "+ 80" = None
  ∧ Py.int_of_string "8 0" = None
  ∧ Py.int_of_string "$$80" = None.
Proof. repeat split. Qed.

(** White space above 127 is stripped, the separators 28 to 31 are not,
    and a literal of more than 4300 digits is refused. *)
Lemma int_of_string_wide :
  Py.int_of_string
    (String (ascii_of_nat 133) "8080" +:+ String (ascii_of_nat 160) "")
  = Some 8080
  ∧ Py.int_of_string (String (ascii_of_nat 28) "8080") = None
  ∧ is_Some (Py.int_of_string
               (string_of_list_ascii (repeat "7"%char 4300)))
  ∧ Py.int_of_string (string_of_list_ascii (repeat "7"%char 4301)) = None
  ∧ Py.int_of_string
      (string_of_list_ascii (repeat "0"%char 4300 ++ ["_"; "1"]%char))
    = None.
Proof.
  split; [vm_compute; reflexivity|].
  split; [vm_compute; reflexivity|].
  split; [refine (@bool_decide_unpack _ _ _); vm_compute; exact I|].
  split; vm_compute; reflexivity.
Qed.

Lemma replace_samples :
  Py.replace "$" "$$" "a$b$$" = "a$$b$$$$"
  ∧ Py.replace " " "_" "Web UI port" = "Web_UI_port"
  ∧ Py.replace "ab" "x" "aabab" = "axx"
  ∧ Py.replace "" "-" "ab" = "-a-b-".
Proof. repeat split. Qed.

Lemma split_samples :
  Py.split "  --restart   always x" = ["--restart"; "always"; "x"]
  ∧ Py.split "" = [].
Proof. repeat split. Qed.

(** ** The Tag Reader *)

Lemma _tag_present (self : UnDocker) (t : string) (e : Element) :
  find t (tree self) = Some e → _tag self t = Ok (default "" (text e)).
Proof.
  intros He. unfold _tag. rewrite He. simpl.
  by destruct (text e) as [[|c s]|].
Qed.

Lemma _tag_absent (self : UnDocker) (t : string) :
  find t (tree self) = None → _tag self t = Raise AttributeError.
Proof. intros He. unfold _tag. by rewrite He. Qed.

Lemma _tag_Ok (self : UnDocker) (t s : string) :
  _tag self t = Ok s →
  ∃ e, find t (tree self) = Some e ∧ s = default "" (text e).
Proof.
  destruct (find t (tree self)) as [e|] eqn:He.
  - rewrite (_tag_present _ _ _ He). intros [= <-]. eauto.
  - by rewrite (_tag_absent _ _ He).
Qed.

(** [find] gives the first child with the tag, whatever comes after. *)
Lemma find_first (t : string) (e c : Element) (before after : list Element) :
  children e = before ++ c :: after →
  tag c = t → Forall (λ b, tag b ≠ t) before →
  find t e = Some c.
Proof.
  intros Hc Ht Hb. unfold find. rewrite Hc, filter_app. clear Hc.
  induction Hb as [|b bs Hb _ IH].
  - simpl. by rewrite filter_cons_True.
  - by rewrite filter_cons_False.
Qed.

(** When a first element with the tag exists, [_tag] returns its text, or
    the empty string when it has none. *)
Lemma _tag_first_match (self : UnDocker) (t : string) (c : Element)
    (before after : list Element) :
  children (tree self) = before ++ c :: after →
  tag c = t → Forall (λ b, tag b ≠ t) before →
  _tag self t = Ok (match text c with Some s => s | None => "" end).
Proof.
  intros Hc Ht Hb. rewrite (_tag_present _ _ c); [done|].
  by eapply find_first.
Qed.

(** C1: [_tag] is meant to return the empty string for a tag the template
    does not hold.  On the template whose only child is [Name], looking up
    [Registry] raises [AttributeError] instead: [find] returns [None] and
    [.text] is read from it. *)
Theorem C1_tag_absent_raises :
  _tag (Sample.template [Sample.leaf "Name" (Some "app")] false) "Registry"
  = Raise AttributeError.
Proof. reflexivity. Qed.

(** ** The service: [privileged] *)

(** Where [services] returns, [privileged] is false exactly when the text
    of the first [Privileged] element is ["false"]. *)
Lemma services_privileged (self : UnDocker) (k : string) (svc : Service.t) :
  services self = Ok (k, svc) →
  ∃ e, find "Privileged" (tree self) = Some e
       ∧ Service.privileged svc
         = negb (bool_decide (default "" (text e) = "false")).
Proof.
  unfold services. intros H.
  apply bind_Ok in H as ([[[[ps vs] env] lbl] dev] & _ & H). simpl in H.
  bind_inv H. injection H as <- <-. simpl.
  match goal with Hp : _tag self "Privileged" = Ok _ |- _ =>
    apply _tag_Ok in Hp as (e & He & ->) end.
  eauto.
Qed.

Lemma privileged_false :
  (Service.privileged ∘ snd) <$> services (Sample.full (Some "false") false)
  = Ok false.
Proof. vm_compute. reflexivity. Qed.

Lemma privileged_no :
  (Service.privileged ∘ snd) <$> services (Sample.full (Some "no") false)
  = Ok true.
Proof. vm_compute. reflexivity. Qed.

Lemma privileged_empty :
  (Service.privileged ∘ snd) <$> services (Sample.full None false) = Ok true.
Proof. vm_compute. reflexivity. Qed.

(** C2: a template without a [Privileged] tag is to give
    [privileged = true].  On the sample template, which holds every other
    tag [services] reads, the call raises [AttributeError] instead, from
    [_tag "Privileged"]. *)
Theorem C2_privileged_absent_raises :
  find "Privileged" (tree Sample.without_privileged) = None
  ∧ services Sample.without_privileged = Raise AttributeError.
Proof. split; vm_compute; reflexivity. Qed.

(** ** The Extra-Params parser *)

(** Whatever the string, [_extra_params] raises while it builds its
    parser: the first [add_argument] is handed [dest] with what it takes
    for a positional argument. *)
Lemma _extra_params_raises (params : string) :
  _extra_params params = Raise ValueError.
Proof. reflexivity. Qed.

(** The loop that stores the items returns for an empty namespace alone:
    an attribute with a value makes it raise. *)
Lemma extra_params_loop_value (kwargs : list (string * option string))
    (name : string) (v : option string) :
  (name, v) ∈ kwargs → Py.truthy v = true →
  extra_params_loop kwargs = Raise NameError.
Proof.
  unfold extra_params_loop. intros Hin Hv.
  assert (∀ l, foldl (λ acc (attr : string * option string),
             extra_params ← acc;
             if Py.truthy attr.2
             then key ← args__getattribute__ attr.1;
                  Ok (<[key := default "" attr.2]> extra_params)
             else Ok extra_params) (Raise NameError) l
          = (Raise NameError : result (gmap string string))) as Hraise
    by (intros l; by induction l).
  generalize (∅ : gmap string string).
  induction kwargs as [|kv l IH]; intros m; [by apply elem_of_nil in Hin|].
  simpl. apply elem_of_cons in Hin as [<- | Hin].
  - simpl. rewrite Hv. simpl. apply Hraise.
  - destruct (Py.truthy kv.2); simpl; [apply Hraise | by apply IH].
Qed.

Lemma parse_known_args_samples :
  argparse.parse_known_args Sample.parser
    (Py.split "--netw=host --restart -1 x --r=y -- --net z")
  = Ok [("restart", Some "y"); ("networks", Some "host")]
  ∧ argparse.parse_known_args Sample.parser (Py.split "--cpus 2 bare -v /a:/b")
    = Ok [("restart", None); ("networks", None)]
  ∧ argparse.parse_known_args Sample.parser (Py.split "--ne x")
    = Raise SystemExit
  ∧ argparse.parse_known_args Sample.parser (Py.split "--restart -v")
    = Raise SystemExit
  ∧ argparse.parse_known_args Sample.parser (Py.split "--restart -- w")
    = Raise SystemExit
  ∧ argparse.parse_known_args Sample.parser (Py.split "-h") = Raise SystemExit.
Proof. repeat split. Qed.

(** C8: ["--restart always"] is to give the mapping of [restart] to
    [always].  The call raises [ValueError] from the first [add_argument],
    which gets the list of flags where the flags are meant.  Past that,
    with the parser [known_args] describes, the tokens are read as meant
    and the loop that stores the items raises [NameError]: the key is
    looked up in [args], a name that is not bound. *)
Theorem C8_restart_raises :
  _extra_params "--restart always" = Raise ValueError
  ∧ argparse.parse_known_args Sample.parser (Py.split "--restart always")
    = Ok [("restart", Some "always"); ("networks", None)]
  ∧ extra_params_loop
      (argparse._get_kwargs [("restart", Some "always"); ("networks", None)])
    = Raise NameError.
Proof. repeat split. Qed.

Lemma _extra_params_unmatched_raises :
  _extra_params "--cpus 2 bare" = Raise ValueError
  ∧ _extra_params "" = Raise ValueError.
Proof. split; reflexivity. Qed.

(** ** Strings *)

Lemma append_cons (c : ascii) (s t : string) :
  String c s +:+ t = String c (s +:+ t).
Proof. reflexivity. Qed.

Lemma append_nil_l (t : string) : "" +:+ t = t.
Proof. reflexivity. Qed.

Lemma append_nil_r (s : string) : s +:+ "" = s.
Proof. induction s as [|c s IH]; [done|]. by rewrite append_cons, IH. Qed.

(** [str.replace] of a one-character string is the substitution of that
    character. *)
Lemma replace_char (a : ascii) (new s : string) :
  Py.replace (String a "") new s = subst_char a new s.
Proof.
  unfold Py.replace. induction s as [|c s IH]; [done|].
  cbn [Py.replace_go subst_char String.prefix String.length].
  destruct (ascii_dec a c) as [->|Hne].
  - rewrite Ascii.eqb_refl.
    replace (String.prefix "" s) with true by (by destruct s).
    change (1 - 1)%nat with 0%nat. by rewrite IH.
  - apply not_eq_sym, Ascii.eqb_neq in Hne. rewrite Hne. by rewrite IH.
Qed.

Lemma count_double_dollars (s : string) :
  count_dollars (double_dollars s) = (2 * count_dollars s)%nat.
Proof.
  induction s as [|c s IH]; [done|]. unfold double_dollars in *.
  cbn [subst_char count_dollars]. destruct (Ascii.eqb c "$") eqn:Hc.
  - rewrite !append_cons, append_nil_l. cbn [count_dollars].
    rewrite IH. simpl. lia.
  - cbn [count_dollars]. rewrite Hc, IH. lia.
Qed.

Lemma length_double_dollars (s : string) :
  String.length (double_dollars s)
  = (String.length s + count_dollars s)%nat.
Proof.
  induction s as [|c s IH]; [done|]. unfold double_dollars in *.
  cbn [subst_char count_dollars String.length].
  destruct (Ascii.eqb c "$").
  - rewrite !append_cons, append_nil_l. cbn [String.length].
    rewrite IH. lia.
  - cbn [String.length]. rewrite IH. lia.
Qed.

(** ** One Config entry *)

Section entry.
Variable c : Element.
Variable flag : bool.
Variable l : locals.

Lemma config_step_eq (h v : string) :
  header c = Ok h → value c = Ok v →
  config_step c flag l = (l' ← place c v l; Ok (augment c flag h l')).
Proof. intros Hh Hv. unfold config_step. by rewrite Hh, Hv. Qed.

(** The extended labels leave the four other collections alone. *)
Lemma ports_augment h l0 : ports (augment c flag h l0) = ports l0.
Proof. unfold augment. by destruct flag. Qed.
Lemma volumes_augment h l0 : volumes (augment c flag h l0) = volumes l0.
Proof. unfold augment. by destruct flag. Qed.
Lemma devices_augment h l0 : devices (augment c flag h l0) = devices l0.
Proof. unfold augment. by destruct flag. Qed.
Lemma environment_augment h l0 :
  environment (augment c flag h l0) = environment l0.
Proof. unfold augment. by destruct flag. Qed.

(** Decides the five tests on [Type] once the type is known. *)
Ltac types H :=
  unfold place, is_str; rewrite H;
  repeat (rewrite bool_decide_eq_false_2 by (intros [= ?]; done));
  repeat (rewrite bool_decide_eq_true_2 by done).

Lemma place_Port (v : string) :
  get c "Type" = Some "Port" →
  place c v l
  = (item ← port_item c v; Ok (with_ports (λ ps, ps ++ [item]) l)).
Proof. intros H. types H. by destruct (port_item c v). Qed.

Lemma place_Path (v : string) :
  get c "Type" = Some "Path" →
  place c v l = Ok (with_volumes (λ vs, vs ++ [mount c v]) l).
Proof. intros H. by types H. Qed.

Lemma place_Devices (v : string) :
  get c "Type" = Some "Devices" →
  place c v l = Ok (with_devices (λ ds, ds ++ [mount c v]) l).
Proof. intros H. by types H. Qed.

Lemma place_Variable (v : string) :
  get c "Type" = Some "Variable" →
  place c v l
  = Ok (with_environment (setitem (get c "Target") (Some v)) l).
Proof. intros H. by types H. Qed.

Lemma place_Label (v : string) :
  get c "Type" = Some "Label" →
  place c v l = Ok (with_labels (setitem (get c "Target") (Some v)) l).
Proof. intros H. by types H. Qed.

(** Any other type, or none, places nothing. *)
Lemma place_other (v : string) :
  get c "Type" ∉ (Some <$> ["Port"; "Path"; "Devices"; "Variable"; "Label"]) →
  place c v l = Ok l.
Proof.
  intros H. unfold place, is_str.
  repeat (rewrite bool_decide_eq_false_2
            by (intros E; apply H; rewrite E; cbn;
                rewrite !elem_of_cons; auto 10)).
  done.
Qed.

(** The mode part [mount] appends is [mode_suffix]. *)
Lemma mount_eq (v tg : string) :
  get c "Target" = Some tg →
  mount c v = (v +:+ ":" +:+ tg) +:+ mode_suffix (get c "Mode").
Proof.
  intros Ht. unfold mount. rewrite Ht.
  by destruct (get c "Mode") as [[|a m]|].
Qed.

(** Without a [Target] the string holds [None] in its place. *)
Lemma mount_no_target (v : string) :
  get c "Target" = None →
  mount c v = (v +:+ ":" +:+ "None") +:+ mode_suffix (get c "Mode").
Proof.
  intros Ht. unfold mount. rewrite Ht.
  by destruct (get c "Mode") as [[|a m]|].
Qed.

(** The protocol of a port item is the mode, or the empty string. *)
Lemma port_item_eq (v : string) :
  port_item c v
  = (t ← Py.int (get c "Target"); p ← Py.int (Some v);
     Ok (mkPort t p (default "" (get c "Mode")))).
Proof. unfold port_item. by destruct (get c "Mode") as [[|a m]|]. Qed.

(** Whether a step raises, and what, depends on the entry alone. *)
Lemma config_step_Raise (e : exn) (flag' : bool) (l' : locals) :
  config_step c flag l = Raise e → config_step c flag' l' = Raise e.
Proof.
  unfold config_step. destruct (header c) as [h|]; [|done].
  destruct (value c) as [v|]; [|done]. simpl.
  unfold place.
  destruct (is_str (get c "Type") "Port"); simpl; [|discriminate].
  destruct (port_item c v); simpl; [discriminate | done].
Qed.
End entry.

(** ** Port entries *)

Lemma int_Raise (x : option string) (e : exn) :
  Py.int x = Raise e → e = TypeError ∨ e = ValueError.
Proof.
  unfold Py.int. destruct x as [s|]; [|intros [= <-]; by left].
  destruct (Py.int_of_string s); [done|]. intros [= <-]. by right.
Qed.

Lemma int_str_Raise (s : string) (e : exn) :
  Py.int (Some s) = Raise e → e = ValueError.
Proof. unfold Py.int. destruct (Py.int_of_string s); [done|]. by intros [= <-]. Qed.

(** One turn: an entry of type [Port] appends the item of [int(Target)],
    [int(value)] and the mode (or the empty string) to [ports]; when
    [Target] or the effective value is not an integer literal, the step
    raises [TypeError] or [ValueError] and appends nothing. *)
Lemma port_step (c : Element) (flag : bool) (l : locals) (h v : string) :
  get c "Type" = Some "Port" → header c = Ok h → value c = Ok v →
  match Py.int (get c "Target"), Py.int (Some v) with
  | Ok t, Ok p =>
      ∃ l', config_step c flag l = Ok l'
            ∧ ports l' = ports l ++ [mkPort t p (default "" (get c "Mode"))]
  | Raise e, _ =>
      config_step c flag l = Raise e ∧ (e = TypeError ∨ e = ValueError)
  | Ok _, Raise e =>
      config_step c flag l = Raise e ∧ e = ValueError
  end.
Proof.
  intros HT Hh Hv.
  rewrite (config_step_eq _ _ _ _ _ Hh Hv), (place_Port _ _ _ HT), port_item_eq.
  destruct (Py.int (get c "Target")) as [t|e] eqn:Et;
    destruct (Py.int (Some v)) as [p|e'] eqn:Ep; simpl.
  - eexists. split; [done|]. by rewrite ports_augment.
  - split; [done|]. by apply int_str_Raise in Ep.
  - split; [done|]. by apply int_Raise in Et.
  - split; [done|]. by apply int_Raise in Et.
Qed.

Lemma port_step_sample :
  ∃ l', config_step Sample.port_entry true init = Ok l'
        ∧ ports l' = [mkPort 8080 8081 "tcp"].
Proof.
  exact (port_step Sample.port_entry true init
           "net.unraid.docker.config.Web_UI" "8081"
           eq_refl eq_refl eq_refl).
Defined.

(** ** The effective value *)

Lemma value_eq (c : Element) :
  value c
  = match (if Py.truthy (text c) then text c else get c "Default") with
    | Some s => Ok (double_dollars s)
    | None => Raise AttributeError
    end.
Proof.
  unfold value, dot_replace, double_dollars.
  destruct (Py.truthy (text c)).
  - destruct (text c); by rewrite ?replace_char.
  - destruct (get c "Default"); by rewrite ?replace_char.
Qed.

(** C4: the effective value is the text of the entry when there is a
    non-empty one and the [Default] attribute otherwise, with every ["$"]
    doubled, once; a [Variable] entry stores that very value. *)
Theorem C4_effective_value (c : Element) :
  (∀ t, text c = Some t → t ≠ "" → value c = Ok (double_dollars t))
  ∧ (∀ d, text c = None ∨ text c = Some "" → get c "Default" = Some d →
          value c = Ok (double_dollars d))
  ∧ (∀ s, count_dollars (double_dollars s) = (2 * count_dollars s)%nat)
  ∧ (∀ flag l h v, header c = Ok h → value c = Ok v →
       get c "Type" = Some "Variable" →
       ∃ l', config_step c flag l = Ok l'
             ∧ environment l' !! get c "Target" = Some (Some v)).
Proof.
  split_and!.
  - intros t Ht Hne. rewrite value_eq, Ht. by destruct t.
  - intros d Ht Hd. rewrite value_eq. by destruct Ht as [-> | ->]; rewrite Hd.
  - apply count_double_dollars.
  - intros flag l h v Hh Hv HT.
    rewrite (config_step_eq _ _ _ _ _ Hh Hv), (place_Variable _ _ _ HT).
    eexists. split; [done|]. rewrite environment_augment. simpl.
    apply lookup_insert_eq.
Qed.

Lemma C4_effective_value_witness :
  value Sample.variable_entry = Ok "$$HOME"
  ∧ value Sample.path_entry = Ok "/data"
  ∧ ∃ l', config_step Sample.variable_entry false init = Ok l'
          ∧ environment l' !! Some "APP_HOME" = Some (Some "$$HOME").
Proof.
  destruct (C4_effective_value Sample.variable_entry) as (Ht & _ & _ & Hs).
  destruct (C4_effective_value Sample.path_entry) as (_ & Hd & _).
  split_and!.
  - exact (Ht "$HOME" eq_refl ltac:(discriminate)).
  - exact (Hd "/data" (or_introl eq_refl) eq_refl).
  - exact (Hs false init "net.unraid.docker.config.Home" "$$HOME"
             eq_refl eq_refl eq_refl).
Defined.

(** ** Path and Devices entries *)

(** One turn: an entry of type [Path] appends [value:Target] to [volumes] and one
    of type [Devices] appends it to [devices]; [:Mode] follows only when
    there is a mode, so without one the string ends with the target. *)
Lemma mount_step (c : Element) (flag : bool) (l : locals)
    (h v tg : string) :
  header c = Ok h → value c = Ok v → get c "Target" = Some tg →
  let spec := (v +:+ ":" +:+ tg) +:+ mode_suffix (get c "Mode") in
  (get c "Type" = Some "Path" →
     ∃ l', config_step c flag l = Ok l'
           ∧ volumes l' = volumes l ++ [spec] ∧ devices l' = devices l)
  ∧ (get c "Type" = Some "Devices" →
     ∃ l', config_step c flag l = Ok l'
           ∧ devices l' = devices l ++ [spec] ∧ volumes l' = volumes l)
  ∧ (get c "Mode" = None → spec = v +:+ ":" +:+ tg)
  ∧ (∀ m, get c "Mode" = Some m → m ≠ "" →
          spec = (v +:+ ":" +:+ tg) +:+ ":" +:+ m).
Proof.
  intros Hh Hv Ht spec. subst spec. split_and!.
  - intros HT.
    rewrite (config_step_eq _ _ _ _ _ Hh Hv), (place_Path _ _ _ HT).
    eexists. split; [done|].
    rewrite volumes_augment, devices_augment. simpl.
    by rewrite (mount_eq _ _ _ Ht).
  - intros HT.
    rewrite (config_step_eq _ _ _ _ _ Hh Hv), (place_Devices _ _ _ HT).
    eexists. split; [done|].
    rewrite volumes_augment, devices_augment. simpl.
    by rewrite (mount_eq _ _ _ Ht).
  - intros ->. apply append_nil_r.
  - intros m -> Hm. by destruct m.
Qed.

Lemma mount_step_sample :
  (∃ l', config_step Sample.path_entry false init = Ok l'
         ∧ volumes l' = ["/data:/data"] ∧ devices l' = [])
  ∧ (∃ l', config_step Sample.device_entry false init = Ok l'
           ∧ devices l' = ["/dev/dri:/dev/dri:rwm"] ∧ volumes l' = []).
Proof.
  split.
  - exact (proj1 (mount_step Sample.path_entry false init
             "net.unraid.docker.config.Data" "/data" "/data"
             eq_refl eq_refl eq_refl) eq_refl).
  - exact (proj1 (proj2 (mount_step Sample.device_entry false init
             "net.unraid.docker.config.GPU" "/dev/dri" "/dev/dri"
             eq_refl eq_refl eq_refl)) eq_refl).
Defined.

(** ** The loop over the entries *)

Lemma configs_loop_app (flag : bool) (cs cs' : list Element) (l : locals) :
  configs_loop flag (cs ++ cs') l
  = (l' ← configs_loop flag cs l; configs_loop flag cs' l').
Proof.
  revert l. induction cs as [|c cs IH]; intros l; [done|]. simpl.
  destruct (config_step c flag l) as [l1|e]; simpl; [apply IH | done].
Qed.

(** An entry whose step raises makes the loop raise, wherever it stands. *)
Lemma configs_loop_raises (flag : bool) (cs : list Element) (l : locals)
    (c : Element) :
  c ∈ cs → (∀ l0, raises (config_step c flag l0)) →
  raises (configs_loop flag cs l).
Proof.
  intros Hc Hr. revert l.
  induction Hc as [c cs | c c' cs _ IH]; intros l; simpl.
  - by apply raises_bind.
  - destruct (config_step c' flag l) as [l1|e]; simpl;
      [by apply IH | by exists e].
Qed.

Lemma _configs_eq (self : UnDocker) :
  _configs self
  = (l ← configs_loop (config_labels self) (findall "Config" (tree self)) init;
     Ok (ports l, volumes l, environment l, labels l, devices l)).
Proof. reflexivity. Qed.

Lemma services_raises (self : UnDocker) :
  raises (_configs self) → raises (services self).
Proof. apply raises_bind. Qed.

Lemma services_Raise (self : UnDocker) (e : exn) :
  _configs self = Raise e → services self = Raise e.
Proof. unfold services. by intros ->. Qed.

(** ** The order of the tuple *)

(** C9, as [_configs] is written: the tuple it returns lists the
    collections of the loop as ports, volumes, environment, labels,
    devices, the order in which [services] unpacks it. *)
Theorem C9_return_order (self : UnDocker) (l : locals) :
  configs_loop (config_labels self) (findall "Config" (tree self)) init = Ok l →
  items <$> _configs self = Ok (return_order l).
Proof. intros H. rewrite _configs_eq, H. reflexivity. Qed.

Lemma C9_return_order_witness :
  items <$> _configs (Sample.template [Sample.device_entry; Sample.label_entry] false)
  = Ok [PyPorts []; PyStrs []; PyDict ∅; PyDict {[Some "tier" := Some "gold"]};
        PyStrs ["/dev/dri:/dev/dri:rwm"]].
Proof.
  refine (eq_trans
    (C9_return_order
       (Sample.template [Sample.device_entry; Sample.label_entry] false)
       (mkLocals [] [] ["/dev/dri:/dev/dri:rwm"] ∅
          {[Some "tier" := Some "gold"]}) _) _);
    vm_compute; reflexivity.
Defined.

(** On a template with one [Devices] and one [Label] entry the fourth item
    of the tuple is the labels and the fifth the devices: the tuple is not
    in the order ports, volumes, environment, devices, labels. *)
Lemma C9_spec_order_fails :
  ∃ l, configs_loop false [Sample.device_entry; Sample.label_entry] init = Ok l
       ∧ findall "Config"
           (tree (Sample.template [Sample.device_entry; Sample.label_entry] false))
         = [Sample.device_entry; Sample.label_entry]
       ∧ devices l = ["/dev/dri:/dev/dri:rwm"]
       ∧ labels l = {[Some "tier" := Some "gold"]}
       ∧ items <$> _configs
                     (Sample.template [Sample.device_entry; Sample.label_entry] false)
         ≠ Ok (spec_order l).
Proof.
  exists (mkLocals [] [] ["/dev/dri:/dev/dri:rwm"] ∅
            {[Some "tier" := Some "gold"]}).
  split_and!; [vm_compute; reflexivity | reflexivity | done | done |].
  vm_compute. intros H. discriminate H.
Qed.

(** [services] takes the fourth item for its labels and the fifth for its
    devices. *)
Lemma services_unpacks (self : UnDocker) (k : string) (svc : Service.t) :
  services self = Ok (k, svc) →
  ∃ l ul, configs_loop (config_labels self) (findall "Config" (tree self)) init
          = Ok l
          ∧ _unraid_labels self = Ok ul
          ∧ Service.labels svc = update ul (labels l)
          ∧ Service.devices svc = devices l
          ∧ Service.ports svc = ports l
          ∧ Service.volumes svc = volumes l.
Proof.
  unfold services. rewrite _configs_eq. intros H.
  apply bind_Ok in H as (t & Ht & H).
  apply bind_Ok in Ht as (l & Hl & [= <-]). simpl in H.
  apply bind_Ok in H as (ul & Hul & H). simpl in H.
  bind_inv H. injection H as <- <-. simpl. eauto 10.
Qed.

(** ** Entries without a value *)

Lemma header_Raise (c : Element) (e : exn) :
  header c = Raise e → e = AttributeError.
Proof.
  unfold header, dot_replace. destruct (get c "Name"); [done|]. by intros [= <-].
Qed.

Lemma value_missing (c : Element) :
  Py.truthy (text c) = false → get c "Default" = None →
  value c = Raise AttributeError.
Proof. intros Ht Hd. by rewrite value_eq, Ht, Hd. Qed.

Lemma config_step_missing (c : Element) (flag : bool) (l : locals) :
  Py.truthy (text c) = false → get c "Default" = None →
  config_step c flag l = Raise AttributeError.
Proof.
  intros Ht Hd. unfold config_step.
  destruct (header c) as [h|e] eqn:Hh; simpl.
  - by rewrite (value_missing _ Ht Hd).
  - by rewrite (header_Raise _ _ Hh).
Qed.

(** C10: an entry with no text, or an empty one, and no [Default] makes
    its step raise [AttributeError]; [_configs] then returns no tuple and
    [services] no service.  The exception that leaves [_configs] is that
    [AttributeError] when the entries before it are read without one. *)
Theorem C10_missing_default (self : UnDocker) (c : Element) :
  c ∈ findall "Config" (tree self) →
  Py.truthy (text c) = false → get c "Default" = None →
  (∀ flag l, config_step c flag l = Raise AttributeError)
  ∧ raises (_configs self)
  ∧ raises (services self)
  ∧ (∀ before after l1,
       findall "Config" (tree self) = before ++ c :: after →
       configs_loop (config_labels self) before init = Ok l1 →
       _configs self = Raise AttributeError
       ∧ services self = Raise AttributeError).
Proof.
  intros Hc Ht Hd.
  assert (∀ flag l, config_step c flag l = Raise AttributeError) as Hstep
    by (intros; by apply config_step_missing).
  assert (raises (_configs self)) as Hr.
  { rewrite _configs_eq. apply raises_bind.
    eapply configs_loop_raises; [done|]. intros l0. eexists. apply Hstep. }
  split_and!; [done | done | by apply services_raises |].
  intros before after l1 Hsplit Hbefore.
  assert (_configs self = Raise AttributeError) as H.
  { rewrite _configs_eq, Hsplit, configs_loop_app, Hbefore. simpl.
    by rewrite Hstep. }
  split; [done | by apply services_Raise].
Qed.

Lemma C10_missing_default_witness :
  raises (_configs Sample.missing_default)
  ∧ services Sample.missing_default = Raise AttributeError.
Proof.
  assert (Sample.no_default_entry
          ∈ findall "Config" (tree Sample.missing_default)) as Hc.
  { vm_compute. right. left. }
  destruct (C10_missing_default Sample.missing_default Sample.no_default_entry
              Hc eq_refl eq_refl) as (_ & Hr & _ & Hpre).
  split; [exact Hr|].
  refine (proj2 (Hpre [Sample.port_entry] []
            (mkLocals [mkPort 8080 8081 "tcp"] [] [] ∅ ∅) _ _));
    vm_compute; reflexivity.
Defined.

(** ** The synthesized labels and environment *)

Lemma _unraid_labels_managed (self : UnDocker) (ul : dict) :
  _unraid_labels self = Ok ul →
  ul !! Some "net.unraid.docker.managed" = Some (Some "compose").
Proof.
  unfold _unraid_labels. intros H. bind_inv H. injection H as <-.
  vm_compute. reflexivity.
Qed.

Lemma _unraid_environment_items (self : UnDocker) (ue : dict) :
  _unraid_environment self = Ok ue →
  ∃ name, _tag self "Name" = Ok name
          ∧ ue !! Some "TZ" = Some (Some "UTC")
          ∧ ue !! Some "HOST_OS" = Some (Some "Unraid")
          ∧ ue !! Some "HOST_HOSTNAME" = Some (Some name)
          ∧ ue !! Some "HOST_CONTAINERNAME" = Some (Some name).
Proof.
  unfold _unraid_environment. intros H.
  apply bind_Ok in H as (name & Hn & H). simpl in H.
  rewrite Hn in H. simpl in H. injection H as <-.
  exists name. split; [done|]. split_and!; vm_compute; reflexivity.
Qed.

(** [d.update(other)]: the items of [other] win. *)
Lemma update_wins (other d : dict) (k v : option string) :
  other !! k = Some v → update other d !! k = Some v.
Proof. intros H. unfold update. by apply lookup_union_Some_l. Qed.

Lemma update_keeps (other d : dict) (k : option string) :
  other !! k = None → update other d !! k = d !! k.
Proof. intros H. unfold update. by apply lookup_union_r. Qed.

(** C6: the labels and the environment of the service are the synthesized
    mappings laid over what the entries gave, so a synthesized item stands
    whatever an entry stored under its key; and the synthesized mappings
    hold [net.unraid.docker.managed], [TZ], [HOST_OS], and the [Name] tag
    under [HOST_HOSTNAME] and [HOST_CONTAINERNAME]. *)
Theorem C6_synthesized_on_top (self : UnDocker) (k : string) (svc : Service.t) :
  services self = Ok (k, svc) →
  ∃ (l : locals) (ul ue : dict) (name : string),
    configs_loop (config_labels self) (findall "Config" (tree self)) init = Ok l
    ∧ _unraid_labels self = Ok ul
    ∧ _unraid_environment self = Ok ue
    ∧ _tag self "Name" = Ok name
    ∧ (∀ key v, ul !! key = Some v → Service.labels svc !! key = Some v)
    ∧ (∀ key, ul !! key = None → Service.labels svc !! key = labels l !! key)
    ∧ (∀ key v, ue !! key = Some v → Service.environment svc !! key = Some v)
    ∧ (∀ key, ue !! key = None →
              Service.environment svc !! key = environment l !! key)
    ∧ ul !! Some "net.unraid.docker.managed" = Some (Some "compose")
    ∧ ue !! Some "TZ" = Some (Some "UTC")
    ∧ ue !! Some "HOST_OS" = Some (Some "Unraid")
    ∧ ue !! Some "HOST_HOSTNAME" = Some (Some name)
    ∧ ue !! Some "HOST_CONTAINERNAME" = Some (Some name).
Proof.
  unfold services. rewrite _configs_eq. intros H.
  apply bind_Ok in H as (t & Ht & H).
  apply bind_Ok in Ht as (l & Hl & [= <-]). simpl in H.
  apply bind_Ok in H as (ul & Hul & H). simpl in H.
  apply bind_Ok in H as (ue & Hue & H). simpl in H.
  bind_inv H. injection H as <- <-. simpl.
  destruct (_unraid_environment_items _ _ Hue) as (name & Hn & ? & ? & ? & ?).
  exists l, ul, ue, name. split_and!; try done.
  - intros key v. apply update_wins.
  - intros key. apply update_keeps.
  - intros key v. apply update_wins.
  - intros key. apply update_keeps.
  - by eapply _unraid_labels_managed.
Qed.

(** On the sample the entries store [manual] and [Europe/Paris] under
    [net.unraid.docker.managed] and [TZ]; the service holds [compose] and
    [UTC]. *)
Lemma C6_synthesized_on_top_witness :
  ∃ svc, services Sample.colliding = Ok ("app", svc)
    ∧ (∃ l, configs_loop false (findall "Config" (tree Sample.colliding)) init
            = Ok l
            ∧ labels l !! Some "net.unraid.docker.managed"
              = Some (Some "manual")
            ∧ environment l !! Some "TZ" = Some (Some "Europe/Paris"))
    ∧ Service.labels svc !! Some "net.unraid.docker.managed"
      = Some (Some "compose")
    ∧ Service.environment svc !! Some "TZ" = Some (Some "UTC")
    ∧ Service.environment svc !! Some "HOST_HOSTNAME" = Some (Some "app").
Proof.
  destruct (services Sample.colliding) as [[k svc]|e] eqn:Hs;
    [|vm_compute in Hs; discriminate Hs].
  assert (k = "app") as -> by (vm_compute in Hs; congruence).
  exists svc. split; [done|].
  destruct (C6_synthesized_on_top _ _ _ Hs)
    as (l & ul & ue & name & Hl & _ & _ & Hn & Hul & _ & Hue & _
        & Hm & Htz & _ & Hh & _).
  assert (name = "app") as -> by (vm_compute in Hn; congruence).
  split_and!; [| by apply Hul | by apply Hue | by apply Hue].
  exists l. simpl in Hl. split; [done|].
  vm_compute in Hl. injection Hl as <-. split; vm_compute; reflexivity.
Defined.

(** ** Extended labels *)

Lemma header_eq (c : Element) (name : string) :
  get c "Name" = Some name →
  header c = Ok ("net.unraid.docker.config." +:+ underscores name).
Proof.
  intros Hn. unfold header, dot_replace, underscores.
  by rewrite Hn, replace_char.
Qed.

Lemma key_ne (h a b : string) : a ≠ b → Some (h +:+ a) ≠ Some (h +:+ b).
Proof. intros Hne [= E]. by apply (inj (String.app h)) in E. Qed.

Section extended.
Variable c : Element.
Variable h : string.

Ltac lookup_key :=
  unfold extended, display, setitem; simpl;
  repeat (rewrite lookup_insert_ne by (by apply key_ne));
  apply lookup_insert_eq.

Lemma extended_default :
  extended c h !! Some (h +:+ ".default") = Some (get c "Default").
Proof. lookup_key. Qed.
Lemma extended_description :
  extended c h !! Some (h +:+ ".description") = Some (get c "Description").
Proof. lookup_key. Qed.
Lemma extended_display :
  extended c h !! Some (h +:+ ".display") = Some (get c "Display").
Proof. lookup_key. Qed.
Lemma extended_required :
  extended c h !! Some (h +:+ ".required") = Some (get c "Required").
Proof. lookup_key. Qed.
Lemma extended_mask :
  extended c h !! Some (h +:+ ".mask") = Some (get c "Mask").
Proof. lookup_key. Qed.

Lemma dom_extended : dom (extended c h) = list_to_set (extended_keys h).
Proof.
  unfold extended, display, setitem, extended_keys. simpl.
  rewrite !dom_insert_L, dom_empty_L. apply set_eq. intros k.
  rewrite !elem_of_union, !elem_of_singleton, elem_of_empty. tauto.
Qed.

Lemma NoDup_extended_keys : NoDup (extended_keys h).
Proof.
  unfold extended_keys. apply NoDup_fmap_2.
  - intros a b [= E]. by apply (inj (String.app h)) in E.
  - repeat (apply NoDup_cons; split;
              [rewrite ?elem_of_cons, elem_of_nil; intuition discriminate|]).
    apply NoDup_nil_2.
Qed.

Lemma size_extended : size (extended c h) = 5%nat.
Proof.
  rewrite <- size_dom, dom_extended, size_list_to_set
    by apply NoDup_extended_keys.
  reflexivity.
Qed.
End extended.

(** One turn: with the flag, the labels after an entry, whatever its type, are
    those of its typed placement with five items laid over them, the keys
    [net.unraid.docker.config.<name>] followed by [.default],
    [.description], [.display], [.required], [.mask], [<name>] being the
    [Name] attribute with underscores for spaces, and the values the
    attributes as [get] gives them; without the flag the step ends with the
    typed placement. *)
Lemma extended_step (c : Element) (flag : bool) (l l' : locals)
    (name : string) :
  get c "Name" = Some name → config_step c flag l = Ok l' →
  let h := "net.unraid.docker.config." +:+ underscores name in
  ∃ v lp, value c = Ok v ∧ place c v l = Ok lp
    ∧ if flag
      then labels l' = extended c h ∪ labels lp
           ∧ dom (labels l') = list_to_set (extended_keys h) ∪ dom (labels lp)
           ∧ size (extended c h) = 5%nat
           ∧ labels l' !! Some (h +:+ ".default") = Some (get c "Default")
           ∧ labels l' !! Some (h +:+ ".description")
             = Some (get c "Description")
           ∧ labels l' !! Some (h +:+ ".display") = Some (get c "Display")
           ∧ labels l' !! Some (h +:+ ".required") = Some (get c "Required")
           ∧ labels l' !! Some (h +:+ ".mask") = Some (get c "Mask")
      else l' = lp.
Proof.
  intros Hn Hstep h. unfold config_step in Hstep.
  rewrite (header_eq _ _ Hn) in Hstep. simpl in Hstep. fold h in Hstep.
  apply bind_Ok in Hstep as (v & Hv & Hstep). simpl in Hstep.
  apply bind_Ok in Hstep as (lp & Hp & Hstep). simpl in Hstep.
  exists v, lp. split_and!; [done..|].
  destruct flag; injection Hstep as <-; [|done]. simpl. unfold update.
  split_and!.
  - done.
  - by rewrite dom_union_L, dom_extended.
  - apply size_extended.
  - apply lookup_union_Some_l, extended_default.
  - apply lookup_union_Some_l, extended_description.
  - apply lookup_union_Some_l, extended_display.
  - apply lookup_union_Some_l, extended_required.
  - apply lookup_union_Some_l, extended_mask.
Qed.

Lemma extended_step_sample :
  (∃ l', config_step Sample.other_entry true init = Ok l'
         ∧ labels l' !! Some "net.unraid.docker.config.Note.default"
           = Some (Some "d")
         ∧ labels l' !! Some "net.unraid.docker.config.Note.description"
           = Some (Some "A note")
         ∧ labels l' !! Some "net.unraid.docker.config.Note.mask" = Some None)
  ∧ config_step Sample.other_entry false init = Ok init.
Proof.
  split.
  - destruct (config_step Sample.other_entry true init) as [l'|e] eqn:Hs;
      [|vm_compute in Hs; discriminate Hs].
    exists l'. split; [done|].
    destruct (extended_step Sample.other_entry true init l' "Note"
                eq_refl Hs)
      as (v & lp & _ & _ & _ & _ & _ & Hd & Hdesc & _ & _ & Hm).
    split_and!; [exact Hd | exact Hdesc | exact Hm].
  - destruct (config_step Sample.other_entry false init) as [l'|e] eqn:Hs;
      [|vm_compute in Hs; discriminate Hs].
    destruct (extended_step Sample.other_entry false init l' "Note"
                eq_refl Hs) as (v & lp & Hv & Hp & ->).
    rewrite <- Hp. vm_compute in Hv. injection Hv as <-. reflexivity.
Defined.

(** *** The labels of a whole run *)

Lemma labels_place (c : Element) (v : string) (l lp : locals) :
  place c v l = Ok lp →
  labels lp
  = if is_str (get c "Type") "Label"
    then setitem (get c "Target") (Some v) (labels l)
    else labels l.
Proof.
  unfold place. intros H. apply bind_Ok in H as (l1 & H1 & [= <-]).
  assert (labels l1 = labels l) as Hl1.
  { destruct (is_str (get c "Type") "Port").
    - by apply bind_Ok in H1 as (item & _ & [= <-]).
    - by injection H1 as <-. }
  destruct (is_str (get c "Type") "Path"), (is_str (get c "Type") "Devices"),
    (is_str (get c "Type") "Variable"), (is_str (get c "Type") "Label");
    simpl; by rewrite Hl1.
Qed.

Lemma labels_step (c : Element) (flag : bool) (l l' : locals) :
  config_step c flag l = Ok l' →
  ∃ h v, header c = Ok h ∧ value c = Ok v
    ∧ labels l'
      = (if flag then update (extended c h) else id)
          (if is_str (get c "Type") "Label"
           then setitem (get c "Target") (Some v) (labels l)
           else labels l).
Proof.
  unfold config_step. intros H.
  apply bind_Ok in H as (h & Hh & H). simpl in H.
  apply bind_Ok in H as (v & Hv & H). simpl in H.
  apply bind_Ok in H as (lp & Hp & H). simpl in H.
  exists h, v. split_and!; [done..|].
  rewrite <- (labels_place _ _ _ _ Hp). injection H as <-. by destruct flag.
Qed.

(** No step removes a label. *)
Lemma dom_labels_step (c : Element) (flag : bool) (l l' : locals)
    (k : option string) :
  config_step c flag l = Ok l' → k ∈ dom (labels l) → k ∈ dom (labels l').
Proof.
  intros H Hk. apply labels_step in H as (h & v & _ & _ & ->).
  assert (k ∈ dom (if is_str (get c "Type") "Label"
                   then setitem (get c "Target") (Some v) (labels l)
                   else labels l)) as Hk'.
  { destruct (is_str (get c "Type") "Label"); [|done].
    unfold setitem. rewrite dom_insert_L, elem_of_union. by right. }
  destruct flag; [|done].
  unfold update. rewrite dom_union_L, elem_of_union. by right.
Qed.

Lemma dom_labels_loop (flag : bool) (cs : list Element) (l l' : locals)
    (k : option string) :
  configs_loop flag cs l = Ok l' → k ∈ dom (labels l) → k ∈ dom (labels l').
Proof.
  revert l. induction cs as [|c cs IH]; intros l H Hk; simpl in H.
  - by injection H as <-.
  - apply bind_Ok in H as (l1 & H1 & H). eapply IH; [done|].
    by eapply dom_labels_step.
Qed.

(** With the flag, the labels [_configs] returns hold the five keys of
    every entry of the template. *)
Lemma extended_keys_in_labels (cs : list Element) (l l' : locals)
    (c : Element) (name : string) (k : option string) :
  configs_loop true cs l = Ok l' → c ∈ cs → get c "Name" = Some name →
  k ∈ extended_keys ("net.unraid.docker.config." +:+ underscores name) →
  k ∈ dom (labels l').
Proof.
  intros H Hc Hn Hk. revert l H.
  induction Hc as [c cs | c c' cs _ IH]; intros l H; simpl in H;
    apply bind_Ok in H as (l1 & H1 & H).
  - eapply dom_labels_loop; [done|].
    apply labels_step in H1 as (h & v & Hh & _ & ->).
    rewrite (header_eq _ _ Hn) in Hh. injection Hh as <-.
    unfold update. rewrite dom_union_L, elem_of_union, dom_extended.
    left. by apply elem_of_list_to_set.
  - by eapply IH.
Qed.

(** Without the flag, they hold the targets of the [Label] entries and
    nothing else. *)
Lemma labels_without_flag (cs : list Element) (l l' : locals)
    (k : option string) :
  configs_loop false cs l = Ok l' → k ∈ dom (labels l') →
  k ∈ dom (labels l)
  ∨ ∃ c, c ∈ cs ∧ get c "Type" = Some "Label" ∧ get c "Target" = k.
Proof.
  revert l. induction cs as [|c cs IH]; intros l H Hk; simpl in H.
  - injection H as <-. by left.
  - apply bind_Ok in H as (l1 & H1 & H).
    destruct (IH _ H Hk) as [Hk1 | (c' & Hc' & HT & Htg)].
    + apply labels_step in H1 as (h & v & _ & _ & Hl1). simpl in Hl1.
      rewrite Hl1 in Hk1. unfold is_str in Hk1. case_bool_decide as HT.
      * unfold setitem in Hk1.
        rewrite dom_insert_L, elem_of_union, elem_of_singleton in Hk1.
        destruct Hk1 as [-> | Hk1]; [|by left].
        right. exists c. split_and!; [left | done | done].
      * by left.
    + right. exists c'. split_and!; [by right | done | done].
Qed.

(** * Further properties of the code *)

(** ** The Tag Reader, case by case *)

Lemma find_Some_split (t : string) (e c : Element) :
  find t e = Some c →
  ∃ before after, children e = before ++ c :: after
                  ∧ tag c = t ∧ Forall (λ b, tag b ≠ t) before.
Proof.
  unfold find. induction (children e) as [|b bs IH]; [done|].
  destruct (decide (tag b = t)) as [Hb|Hb].
  - rewrite filter_cons_True by done. intros [= <-].
    exists [], bs. by split_and!.
  - rewrite filter_cons_False by done. intros H.
    destruct (IH H) as (before & after & -> & Ht & Hbefore).
    exists (b :: before), after. split_and!; [done | done | by constructor].
Qed.

Lemma find_None_all (t : string) (e : Element) :
  find t e = None → Forall (λ b, tag b ≠ t) (children e).
Proof.
  unfold find. induction (children e) as [|b bs IH]; [by constructor|].
  destruct (decide (tag b = t)) as [Hb|Hb].
  - by rewrite filter_cons_True.
  - rewrite filter_cons_False by done. intros H. constructor; auto.
Qed.

(** X1: for a plain tag name, [_tag] has two outcomes.  Either a child of
    the root has the tag, and the result is the text of the first such
    child, the empty string when it has none, whatever the children after
    it or below it; or no child of the root has the tag and the call
    raises [AttributeError]. *)
Theorem _tag_cases (self : UnDocker) (t : string) :
  plain_tag t = true →
  (∃ before c after,
     children (tree self) = before ++ c :: after
     ∧ tag c = t ∧ Forall (λ b, tag b ≠ t) before
     ∧ _tag self t = Ok (match text c with Some s => s | None => "" end))
  ∨ (Forall (λ b, tag b ≠ t) (children (tree self))
     ∧ _tag self t = Raise AttributeError).
Proof.
  intros _. destruct (find t (tree self)) as [c|] eqn:Hf.
  - left. destruct (find_Some_split _ _ _ Hf) as (before & after & ? & ? & ?).
    exists before, c, after. split_and!; [done..|].
    by rewrite (_tag_present _ _ _ Hf).
  - right. split; [by apply find_None_all | by apply _tag_absent].
Qed.

Lemma _tag_cases_witness :
  (∃ before c after,
     children (tree Run.twice) = before ++ c :: after
     ∧ tag c = "Name" ∧ Forall (λ b, tag b ≠ "Name") before
     ∧ _tag Run.twice "Name"
       = Ok (match text c with Some s => s | None => "" end))
  ∨ (Forall (λ b, tag b ≠ "Name") (children (tree Run.twice))
     ∧ _tag Run.twice "Name" = Raise AttributeError).
Proof. exact (_tag_cases Run.twice "Name" eq_refl). Defined.

(** ** The network and the service *)

Lemma networks_Ok (self : UnDocker) (s : string) :
  _tag self "Network" = Ok s →
  networks self = Ok (s, Network.mk true s).
Proof. intros H. unfold networks. by rewrite H. Qed.

(** What [services] read under [Network] and [Name]. *)
Lemma services_tags (self : UnDocker) (k : string) (svc : Service.t) :
  services self = Ok (k, svc) →
  ∃ n, _tag self "Network" = Ok n
       ∧ Service.networks svc = [n]
       ∧ Service.container_name svc = k.
Proof.
  unfold services. intros H.
  apply bind_Ok in H as ([[[[ps vs] env] lbl] dev] & _ & H). simpl in H.
  apply bind_Ok in H as (ul & _ & H). simpl in H.
  apply bind_Ok in H as (ue & _ & H). simpl in H.
  apply bind_Ok in H as (key & Hkey & H). simpl in H.
  apply bind_Ok in H as (cn & Hcn & H). simpl in H.
  apply bind_Ok in H as (image & _ & H). simpl in H.
  apply bind_Ok in H as (priv & _ & H). simpl in H.
  apply bind_Ok in H as (n & Hn & H). simpl in H.
  apply bind_Ok in H as (cpuset & _ & H). simpl in H.
  apply bind_Ok in H as (command & _ & H). simpl in H.
  injection H as <- <-. simpl.
  rewrite Hkey in Hcn. injection Hcn as <-.
  exists n. by split_and!.
Qed.

(** X2: when [services] returns, [networks] returns as well, and the one
    network the service lists is the key and the name of the external
    network declared; the key of the service is its container name. *)
Theorem services_networks_agree (self : UnDocker) (k : string)
    (svc : Service.t) :
  services self = Ok (k, svc) →
  ∃ n, networks self = Ok (n, Network.mk true n)
       ∧ Service.networks svc = [n]
       ∧ _tag self "Network" = Ok n
       ∧ Service.container_name svc = k.
Proof.
  intros H. destruct (services_tags _ _ _ H) as (n & Hn & Hl & Hk).
  exists n. split_and!; [by apply networks_Ok | done | done | done].
Qed.

Lemma services_full : services (Sample.full None false) = Ok ("app", Run.full).
Proof. vm_compute. reflexivity. Qed.

Lemma services_bare : services Run.bare = Ok ("app", Run.bare_service).
Proof. vm_compute. reflexivity. Qed.

Lemma services_networks_agree_witness :
  ∃ n, networks (Sample.full None false) = Ok (n, Network.mk true n)
       ∧ Service.networks Run.full = [n].
Proof.
  destruct (services_networks_agree _ _ _ services_full)
    as (n & Hn & Hl & _ & _).
  exists n. split; [exact Hn | exact Hl].
Defined.

(** On a template whose first [Name] has no text, a second [Name] and a
    [Name] below another element change nothing. *)
Lemma _tag_twice : _tag Run.twice "Name" = Ok "".
Proof. reflexivity. Qed.

(** ** The templates the classifier reads *)

Lemma config_step_ok_iff (c : Element) (flag : bool) (l : locals) :
  (∃ l', config_step c flag l = Ok l') ↔ entry_ok c = true.
Proof.
  assert (∀ A (e : exn), (∃ a : A, Raise e = Ok a) ↔ false = true) as Hno
    by (intros A e; split; [intros [? ?]; discriminate | done]).
  unfold config_step. rewrite value_eq. fold (effective c).
  unfold header, dot_replace, entry_ok.
  destruct (get c "Name") as [name|]; simpl; [|apply Hno].
  destruct (effective c) as [s|]; simpl; [|apply Hno].
  unfold place. destruct (is_str (get c "Type") "Port"); simpl; [|split; by eauto].
  unfold port_item, Py.int.
  destruct (get c "Target") as [tg|]; simpl; [|apply Hno].
  destruct (Py.int_of_string tg) as [t|]; simpl; [|apply Hno].
  destruct (Py.int_of_string (double_dollars s)) as [p|]; simpl;
    [split; by eauto | apply Hno].
Qed.

Lemma configs_loop_ok_iff (flag : bool) (cs : list Element) (l : locals) :
  (∃ l', configs_loop flag cs l = Ok l') ↔ Forall (λ c, entry_ok c = true) cs.
Proof.
  revert l. induction cs as [|c cs IH]; intros l; simpl.
  - split; [by constructor | by eauto].
  - rewrite Forall_cons, <- config_step_ok_iff with (flag := flag) (l := l).
    split.
    + intros [l' H]. apply bind_Ok in H as (l1 & H1 & H).
      split; [by eauto|]. apply (IH l1). by eauto.
    + intros [[l1 H1] Hcs]. rewrite H1. simpl. by apply IH.
Qed.

Lemma _configs_ok_iff (self : UnDocker) :
  (∃ t, _configs self = Ok t)
  ↔ Forall (λ c, entry_ok c = true) (findall "Config" (tree self)).
Proof.
  rewrite _configs_eq, <- configs_loop_ok_iff
    with (flag := config_labels self) (l := init).
  split.
  - intros [t H]. apply bind_Ok in H as (l & Hl & _). by eauto.
  - intros [l Hl]. rewrite Hl. by eauto.
Qed.

(** X3: [_configs] returns exactly for the templates all of whose entries
    have a [Name], a non-empty text or a [Default], and, for the type
    [Port], a [Target] and a value that are integer literals; neither the
    flag nor what the entries hold otherwise matters.  On another template
    it raises what the first entry that is not so raises. *)
Theorem _configs_returns_iff (self : UnDocker) :
  ((∃ t, _configs self = Ok t)
   ↔ Forall (λ c, entry_ok c = true) (findall "Config" (tree self)))
  ∧ (∀ before c after e flag l,
       findall "Config" (tree self) = before ++ c :: after →
       Forall (λ c, entry_ok c = true) before →
       config_step c flag l = Raise e →
       _configs self = Raise e).
Proof.
  split; [apply _configs_ok_iff|].
  intros before c after e flag l Hsplit Hbefore Hstep.
  apply (configs_loop_ok_iff (config_labels self) before init) in Hbefore
    as [l1 Hl1].
  rewrite _configs_eq, Hsplit, configs_loop_app, Hl1. simpl.
  by rewrite (config_step_Raise _ _ _ _ (config_labels self) l1 Hstep).
Qed.

Lemma Forall_entry_ok (cs : list Element) :
  forallb entry_ok cs = true → Forall (λ c, entry_ok c = true) cs.
Proof.
  induction cs as [|c cs IH]; simpl; [by constructor|].
  intros [Hc Hcs]%andb_prop. constructor; auto.
Qed.

Lemma _configs_returns_iff_witness :
  (∃ t, _configs (Sample.full None true) = Ok t)
  ∧ _configs Sample.missing_default = Raise AttributeError.
Proof.
  split.
  - apply (proj1 (_configs_returns_iff (Sample.full None true))).
    apply Forall_entry_ok. vm_compute. reflexivity.
  - refine (proj2 (_configs_returns_iff Sample.missing_default)
              [Sample.port_entry] Sample.no_default_entry [] AttributeError
              false init _ _ _).
    + vm_compute. reflexivity.
    + apply Forall_entry_ok. vm_compute. reflexivity.
    + vm_compute. reflexivity.
Defined.

(** ** The templates [services] reads *)

Lemma _tag_returns (self : UnDocker) (t : string) :
  is_Some (find t (tree self)) → ∃ s, _tag self t = Ok s.
Proof. intros [e He]. rewrite (_tag_present _ _ _ He). by eauto. Qed.

Lemma _tag_Ok_find (self : UnDocker) (t s : string) :
  _tag self t = Ok s → is_Some (find t (tree self)).
Proof. intros H. apply _tag_Ok in H as (e & He & _). by eauto. Qed.

(** X4: [services] returns exactly for the templates [_configs] reads in
    which each of the nineteen tags it looks up is the tag of some child
    of the root. *)
Theorem services_returns_iff (self : UnDocker) :
  (∃ r, services self = Ok r)
  ↔ Forall (λ c, entry_ok c = true) (findall "Config" (tree self))
    ∧ Forall (λ t, is_Some (find t (tree self))) service_tags.
Proof.
  rewrite <- (_configs_ok_iff self). split.
  - intros [r H]. unfold services in H.
    apply bind_Ok in H as (t & Ht & H). split; [by eauto|].
    destruct t as [[[[ps vs] env] lbl] dev]. simpl in H.
    apply bind_Ok in H as (ul & Hul & H). simpl in H.
    apply bind_Ok in H as (ue & Hue & H). simpl in H.
    unfold _unraid_labels in Hul. unfold _unraid_environment in Hue.
    bind_inv Hul. bind_inv Hue. bind_inv H.
    unfold service_tags. repeat constructor; by eapply _tag_Ok_find.
  - intros [[t Ht] Htags]. unfold services. rewrite Ht.
    destruct t as [[[[ps vs] env] lbl] dev]. simpl.
    unfold service_tags in Htags.
    repeat match goal with
           | H : Forall _ (_ :: _) |- _ =>
               let Ht := fresh "Ht" in
               apply Forall_cons in H as [Ht H];
               apply _tag_returns in Ht as [? Ht]
           end.
    unfold _unraid_labels, _unraid_environment.
    repeat match goal with
           | H : _tag self _ = Ok _ |- _ =>
               rewrite !H; clear H; cbn [mbind result_bind]
           end.
    by eauto.
Qed.

(** ** A template without entries *)

Lemma update_empty (other : dict) : update other ∅ = other.
Proof. unfold update. apply (right_id_L ∅ (∪)). Qed.

(** X5: for a template without [Config] entries the service has no port,
    volume or device, its labels are the fourteen synthesized ones and its
    environment the four synthesized variables. *)
Theorem services_no_entries (self : UnDocker) (k : string) (svc : Service.t) :
  findall "Config" (tree self) = [] →
  services self = Ok (k, svc) →
  Service.ports svc = [] ∧ Service.volumes svc = []
  ∧ Service.devices svc = []
  ∧ _unraid_labels self = Ok (Service.labels svc)
  ∧ _unraid_environment self = Ok (Service.environment svc)
  ∧ size (Service.labels svc) = 14%nat
  ∧ size (Service.environment svc) = 4%nat.
Proof.
  intros Hnone Hs. unfold services in Hs. rewrite _configs_eq, Hnone in Hs.
  simpl in Hs.
  apply bind_Ok in Hs as (ul & Hul & Hs). simpl in Hs.
  apply bind_Ok in Hs as (ue & Hue & Hs). simpl in Hs.
  bind_inv Hs. injection Hs as <- <-. simpl. rewrite !update_empty.
  split_and!; [done..| |].
  - unfold _unraid_labels in Hul. bind_inv Hul. injection Hul as <-.
    vm_compute. reflexivity.
  - unfold _unraid_environment in Hue. bind_inv Hue. injection Hue as <-.
    vm_compute. reflexivity.
Qed.

Lemma services_no_entries_witness :
  Service.ports Run.bare_service = []
  ∧ size (Service.labels Run.bare_service) = 14%nat
  ∧ size (Service.environment Run.bare_service) = 4%nat.
Proof.
  assert (findall "Config" (tree Run.bare) = []) as Hnone
    by (vm_compute; reflexivity).
  destruct (services_no_entries _ _ _ Hnone services_bare)
    as (Hp & _ & _ & _ & _ & Hl & He).
  split_and!; [exact Hp | exact Hl | exact He].
Defined.

(** ** What one entry does to the five collections *)

Lemma place_effect (c : Element) (v : string) (l lp : locals) :
  place c v l = Ok lp →
  ports lp
  = ports l ++ (if is_str (get c "Type") "Port"
                then match port_item c v with
                     | Ok item => [item]
                     | Raise _ => []
                     end
                else [])
  ∧ volumes lp
    = volumes l ++ (if is_str (get c "Type") "Path" then [mount c v] else [])
  ∧ devices lp
    = devices l ++ (if is_str (get c "Type") "Devices" then [mount c v] else [])
  ∧ environment lp
    = (if is_str (get c "Type") "Variable"
       then setitem (get c "Target") (Some v) (environment l)
       else environment l).
Proof.
  unfold place. intros H. apply bind_Ok in H as (l1 & H1 & [= <-]).
  assert (ports l1
          = ports l ++ (if is_str (get c "Type") "Port"
                        then match port_item c v with
                             | Ok item => [item]
                             | Raise _ => []
                             end
                        else [])
          ∧ volumes l1 = volumes l ∧ devices l1 = devices l
          ∧ environment l1 = environment l) as (Hp & Hv & Hd & He).
  { destruct (is_str (get c "Type") "Port").
    - apply bind_Ok in H1 as (item & -> & [= <-]). done.
    - injection H1 as <-. by rewrite app_nil_r. }
  destruct (is_str (get c "Type") "Path"), (is_str (get c "Type") "Devices"),
    (is_str (get c "Type") "Variable"), (is_str (get c "Type") "Label");
    simpl; rewrite ?Hp, ?Hv, ?Hd, ?He, ?app_nil_r; done.
Qed.

Lemma step_effect (c : Element) (flag : bool) (l l' : locals) :
  config_step c flag l = Ok l' →
  ∃ v, value c = Ok v
    ∧ ports l' = ports l ++ ports_of [c]
    ∧ volumes l' = volumes l ++ mounts_of "Path" [c]
    ∧ devices l' = devices l ++ mounts_of "Devices" [c]
    ∧ environment l'
      = (if is_str (get c "Type") "Variable"
         then setitem (get c "Target") (Some v) (environment l)
         else environment l).
Proof.
  unfold config_step. intros H.
  apply bind_Ok in H as (h & Hh & H). simpl in H.
  apply bind_Ok in H as (v & Hv & H). simpl in H.
  apply bind_Ok in H as (lp & Hp & [= <-]).
  fold (augment c flag h lp).
  rewrite ports_augment, volumes_augment, devices_augment, environment_augment.
  destruct (place_effect _ _ _ _ Hp) as (-> & -> & -> & ->).
  exists v. split; [done|]. unfold ports_of, mounts_of. simpl. rewrite Hv.
  assert (is_str (get c "Type") "Port" = true → ∃ i, port_item c v = Ok i)
    as Hitem.
  { intros HP. unfold place in Hp. rewrite HP in Hp.
    destruct (port_item c v); [by eauto | discriminate]. }
  split_and!; [|by destruct (is_str (get c "Type") "Path")
                |by destruct (is_str (get c "Type") "Devices") | done].
  destruct (is_str (get c "Type") "Port"); [|done].
  by destruct (Hitem eq_refl) as [i ->].
Qed.

Lemma ports_of_app (cs cs' : list Element) :
  ports_of (cs ++ cs') = ports_of cs ++ ports_of cs'.
Proof. apply omap_app. Qed.

Lemma mounts_of_app (ty : string) (cs cs' : list Element) :
  mounts_of ty (cs ++ cs') = mounts_of ty cs ++ mounts_of ty cs'.
Proof. apply omap_app. Qed.

(** Every turn of the loop appends to the lists of its state. *)
Lemma configs_loop_lists (flag : bool) (cs : list Element) (l l' : locals) :
  configs_loop flag cs l = Ok l' →
  ports l' = ports l ++ ports_of cs
  ∧ volumes l' = volumes l ++ mounts_of "Path" cs
  ∧ devices l' = devices l ++ mounts_of "Devices" cs.
Proof.
  revert l. induction cs as [|c cs IH]; intros l H; simpl in H.
  - injection H as <-. by rewrite !app_nil_r.
  - apply bind_Ok in H as (l1 & H1 & H).
    destruct (IH _ H) as (-> & -> & ->).
    destruct (step_effect _ _ _ _ H1) as (v & _ & -> & -> & -> & _).
    change (c :: cs) with ([c] ++ cs).
    by rewrite ports_of_app, !mounts_of_app, !app_assoc.
Qed.

(** X6: the ports, volumes and devices [_configs] returns are the items
    of the [Port], [Path] and [Devices] entries, each list in the order of
    the entries in the template; no item is dropped, repeated or moved. *)
Theorem lists_in_document_order (self : UnDocker) (ps : list port)
    (vs ds : list string) (env lbl : dict) :
  _configs self = Ok (ps, vs, env, lbl, ds) →
  ps = ports_of (findall "Config" (tree self))
  ∧ vs = mounts_of "Path" (findall "Config" (tree self))
  ∧ ds = mounts_of "Devices" (findall "Config" (tree self)).
Proof.
  rewrite _configs_eq. intros H. apply bind_Ok in H as (l & Hl & [= <- <- _ _ <-]).
  by destruct (configs_loop_lists _ _ _ _ Hl) as (-> & -> & ->).
Qed.

Lemma lists_in_document_order_witness :
  ∃ env lbl,
    _configs (Sample.template (Sample.path_entry :: Sample.entries) false)
    = Ok ([mkPort 8080 8081 "tcp"], ["/data:/data"; "/data:/data"], env, lbl,
          ["/dev/dri:/dev/dri:rwm"]).
Proof.
  destruct (proj2 (_configs_ok_iff
                     (Sample.template (Sample.path_entry :: Sample.entries)
                        false)))
    as [[[[[ps vs] env] lbl] ds] H];
    [apply Forall_entry_ok; vm_compute; reflexivity|].
  exists env, lbl. rewrite H.
  destruct (lists_in_document_order _ _ _ _ _ _ H) as (-> & -> & ->).
  reflexivity.
Defined.

(** Proves a decidable closed proposition by evaluation. *)
Ltac decide_by_vm :=
  match goal with
  | |- ?P => refine (@bool_decide_unpack P _ _); vm_compute; exact I
  end.

(** ** The environment of a run *)

Lemma is_str_true (x : option string) (s : string) :
  is_str x s = true ↔ x = Some s.
Proof. unfold is_str. apply bool_decide_eq_true. Qed.

(** The entries that are no [Variable] entry with target [k] leave the
    item under [k] as it is. *)
Lemma environment_kept (flag : bool) (cs : list Element) (l l' : locals)
    (k : option string) :
  configs_loop flag cs l = Ok l' →
  Forall (λ c, ¬ (get c "Type" = Some "Variable" ∧ get c "Target" = k)) cs →
  environment l' !! k = environment l !! k.
Proof.
  revert l. induction cs as [|c cs IH]; intros l H Hcs; simpl in H.
  - by injection H as <-.
  - apply bind_Ok in H as (l1 & H1 & H).
    apply Forall_cons in Hcs as [Hc Hcs]. rewrite (IH _ H Hcs).
    destruct (step_effect _ _ _ _ H1) as (v & _ & _ & _ & _ & ->).
    destruct (is_str (get c "Type") "Variable") eqn:HT; [|done].
    apply is_str_true in HT. unfold setitem.
    apply lookup_insert_ne. intros Hk. by apply Hc.
Qed.

(** X7: the environment [_configs] returns holds under a key the value of
    the last [Variable] entry with that target, escaped, and under a key
    that is the target of no [Variable] entry what it held at the start. *)
Theorem environment_last_write_wins (flag : bool)
    (before after : list Element) (c : Element) (v : string) (l l' : locals) :
  configs_loop flag (before ++ c :: after) l = Ok l' →
  get c "Type" = Some "Variable" → value c = Ok v →
  Forall (λ c', ¬ (get c' "Type" = Some "Variable"
                   ∧ get c' "Target" = get c "Target")) after →
  environment l' !! get c "Target" = Some (Some v)
  ∧ ∀ k, Forall (λ c', ¬ (get c' "Type" = Some "Variable"
                          ∧ get c' "Target" = k)) (before ++ c :: after) →
         environment l' !! k = environment l !! k.
Proof.
  intros H HT Hv Hafter. split; [|intros k Hk; by eapply environment_kept].
  rewrite configs_loop_app in H. apply bind_Ok in H as (l1 & _ & H).
  simpl in H. apply bind_Ok in H as (l2 & H2 & H).
  rewrite (environment_kept _ _ _ _ _ H Hafter).
  destruct (step_effect _ _ _ _ H2) as (v' & Hv' & _ & _ & _ & ->).
  rewrite Hv in Hv'. injection Hv' as <-.
  apply is_str_true in HT. rewrite HT. apply lookup_insert_eq.
Qed.

Lemma environment_last_write_wins_witness :
  ∃ l', configs_loop true
          [Sample.tz_entry; Sample.port_entry; Sample.variable_entry;
           Sample.tz_entry; Sample.label_entry] init = Ok l'
        ∧ environment l' !! Some "TZ" = Some (Some "Europe/Paris")
        ∧ environment l' !! Some "tier" = None.
Proof.
  destruct (proj2 (configs_loop_ok_iff true
              [Sample.tz_entry; Sample.port_entry; Sample.variable_entry;
               Sample.tz_entry; Sample.label_entry] init))
    as [l' Hl]; [apply Forall_entry_ok; vm_compute; reflexivity|].
  exists l'. split; [exact Hl|].
  assert (get Sample.tz_entry "Type" = Some "Variable") as HT
    by (vm_compute; reflexivity).
  assert (value Sample.tz_entry = Ok "Europe/Paris") as Hv
    by (vm_compute; reflexivity).
  assert (get Sample.tz_entry "Target" = Some "TZ") as Htg
    by (vm_compute; reflexivity).
  destruct (environment_last_write_wins true
              [Sample.tz_entry; Sample.port_entry; Sample.variable_entry]
              [Sample.label_entry] Sample.tz_entry "Europe/Paris" init l'
              Hl HT Hv) as [Htz Hkept].
  - decide_by_vm.
  - rewrite Htg in Htz. split; [exact Htz|].
    rewrite (Hkept (Some "tier")); [apply lookup_empty|].
    decide_by_vm.
Defined.

(** ** The keys of the labels *)

Lemma header_Ok (c : Element) (h : string) :
  header c = Ok h →
  ∃ name, get c "Name" = Some name
          ∧ h = "net.unraid.docker.config." +:+ underscores name.
Proof.
  intros Hh. destruct (get c "Name") as [name|] eqn:Hn.
  - rewrite (header_eq _ _ Hn) in Hh. injection Hh as <-. by eauto.
  - unfold header, dot_replace in Hh. by rewrite Hn in Hh.
Qed.

(** The keys of the labels after the loop: those at the start, the targets
    of the [Label] entries and, under the flag, the five keys of every
    entry. *)
Lemma configs_loop_labels_keys (flag : bool) (cs : list Element)
    (l l' : locals) (k : option string) :
  configs_loop flag cs l = Ok l' →
  k ∈ dom (labels l')
  ↔ k ∈ dom (labels l)
    ∨ (∃ c, c ∈ cs ∧ get c "Type" = Some "Label" ∧ get c "Target" = k)
    ∨ (flag = true
       ∧ ∃ c name, c ∈ cs ∧ get c "Name" = Some name
           ∧ k ∈ extended_keys
                   ("net.unraid.docker.config." +:+ underscores name)).
Proof.
  revert l. induction cs as [|c cs IH]; intros l H; simpl in H.
  - injection H as <-. split; [by left|].
    intros [?|[(c & Hc & _)|(_ & c & n & Hc & _)]];
      [done | by apply elem_of_nil in Hc..].
  - apply bind_Ok in H as (l1 & H1 & H). rewrite (IH _ H).
    apply labels_step in H1 as (h & v & Hh & _ & Hl1).
    apply header_Ok in Hh as (name & Hn & ->).
    assert (k ∈ dom (labels l1)
            ↔ k ∈ dom (labels l)
              ∨ (get c "Type" = Some "Label" ∧ get c "Target" = k)
              ∨ (flag = true
                 ∧ k ∈ extended_keys
                     ("net.unraid.docker.config." +:+ underscores name)))
      as ->.
    { rewrite Hl1. destruct flag; simpl.
      - unfold update. rewrite dom_union_L, elem_of_union, dom_extended,
          elem_of_list_to_set.
        destruct (is_str (get c "Type") "Label") eqn:HT.
        + apply is_str_true in HT. unfold setitem.
          rewrite dom_insert_L, elem_of_union, elem_of_singleton.
          split; intros; intuition (subst; auto).
        + assert (get c "Type" ≠ Some "Label")
            by (intros E; apply is_str_true in E; congruence).
          split; intros; intuition (subst; auto).
      - destruct (is_str (get c "Type") "Label") eqn:HT.
        + apply is_str_true in HT. unfold setitem.
          rewrite dom_insert_L, elem_of_union, elem_of_singleton.
          split; intros; intuition (subst; auto; discriminate).
        + assert (get c "Type" ≠ Some "Label")
            by (intros E; apply is_str_true in E; congruence).
          split; intros; intuition (subst; auto; discriminate). }
    split.
    + intros [[Hk|[[HT Htg]|[Hf Hk]]]
             |[(c0 & Hc0 & HT & Htg)|(Hf & c0 & n0 & Hc0 & Hn0 & Hk)]].
      * by left.
      * right; left. exists c. split_and!; [left | done | done].
      * right; right. split; [done|].
        exists c, name. split_and!; [left | done | done].
      * right; left. exists c0. split_and!; [by right | done | done].
      * right; right. split; [done|].
        exists c0, n0. split_and!; [by right | done | done].
    + intros [Hk|[(c0 & Hc0 & HT & Htg)|(Hf & c0 & n0 & Hc0 & Hn0 & Hk)]].
      * left; by left.
      * apply elem_of_cons in Hc0 as [->|Hc0].
        -- left; right; left. done.
        -- right; left. by eauto.
      * apply elem_of_cons in Hc0 as [->|Hc0].
        -- left; right; right. split; [done|].
          rewrite Hn in Hn0. by injection Hn0 as <-.
        -- right; right. split; [done|]. by eauto.
Qed.

(** X8: the keys of the labels [_configs] returns are the targets of the
    [Label] entries and, under the flag, the five keys of every entry;
    there is no other key. *)
Theorem labels_keys (self : UnDocker) (ps : list port) (vs ds : list string)
    (env lbl : dict) (k : option string) :
  _configs self = Ok (ps, vs, env, lbl, ds) →
  k ∈ dom lbl
  ↔ (∃ c, c ∈ findall "Config" (tree self)
          ∧ get c "Type" = Some "Label" ∧ get c "Target" = k)
    ∨ (config_labels self = true
       ∧ ∃ c name, c ∈ findall "Config" (tree self)
           ∧ get c "Name" = Some name
           ∧ k ∈ extended_keys
                   ("net.unraid.docker.config." +:+ underscores name)).
Proof.
  rewrite _configs_eq. intros H.
  apply bind_Ok in H as (l & Hl & [= _ _ _ <- _]).
  rewrite (configs_loop_labels_keys _ _ _ _ k Hl). simpl.
  rewrite dom_empty_L. split; [|by right].
  intros [Hk|H]; [by apply elem_of_empty in Hk | done].
Qed.

Lemma labels_keys_witness :
  ∃ ps vs env lbl ds,
    _configs (Sample.template Sample.entries false)
    = Ok (ps, vs, env, lbl, ds)
    ∧ Some "tier" ∈ dom lbl
    ∧ Some "net.unraid.docker.config.Tier.default" ∉ dom lbl.
Proof.
  destruct (proj2 (_configs_ok_iff (Sample.template Sample.entries false)))
    as [[[[[ps vs] env] lbl] ds] H];
    [apply Forall_entry_ok; vm_compute; reflexivity|].
  exists ps, vs, env, lbl, ds. split; [exact H|]. split.
  - apply (labels_keys _ _ _ _ _ _ _ H). left.
    exists Sample.label_entry. split_and!; [|reflexivity..].
    change (findall "Config" (tree (Sample.template Sample.entries false)))
      with Sample.entries.
    unfold Sample.entries. rewrite !elem_of_cons. tauto.
  - rewrite (labels_keys _ _ _ _ _ _ _ H).
    assert (Forall (λ c, ¬ (get c "Type" = Some "Label"
                            ∧ get c "Target"
                              = Some "net.unraid.docker.config.Tier.default"))
              (findall "Config"
                 (tree (Sample.template Sample.entries false)))) as Hnone
      by decide_by_vm.
    intros [(c & Hc & HT & Hk)|(Hf & _)]; [|discriminate Hf].
    rewrite Forall_forall in Hnone. exact (Hnone c Hc (conj HT Hk)).
Defined.

(** ** The flag *)

Lemma environment_determined (f f' : bool) (cs : list Element)
    (l m l' m' : locals) :
  configs_loop f cs l = Ok l' → configs_loop f' cs m = Ok m' →
  environment l = environment m → environment l' = environment m'.
Proof.
  revert l m. induction cs as [|c cs IH]; intros l m Hl Hm He; simpl in *.
  - injection Hl as <-. by injection Hm as <-.
  - apply bind_Ok in Hl as (l1 & Hl1 & Hl).
    apply bind_Ok in Hm as (m1 & Hm1 & Hm).
    apply (IH _ _ Hl Hm).
    destruct (step_effect _ _ _ _ Hl1) as (v & Hv & _ & _ & _ & ->).
    destruct (step_effect _ _ _ _ Hm1) as (v' & Hv' & _ & _ & _ & ->).
    rewrite Hv in Hv'. injection Hv' as <-. by rewrite He.
Qed.

(** X9: the flag changes the labels and nothing else.  A run that returns
    without it returns with it, with the same ports, volumes, devices and
    environment, and with every label key it had without. *)
Theorem flag_only_labels (cs : list Element) (l l0 : locals) :
  configs_loop false cs l = Ok l0 →
  ∃ l1, configs_loop true cs l = Ok l1
        ∧ ports l1 = ports l0 ∧ volumes l1 = volumes l0
        ∧ devices l1 = devices l0 ∧ environment l1 = environment l0
        ∧ ∀ k, k ∈ dom (labels l0) → k ∈ dom (labels l1).
Proof.
  intros H0.
  destruct (proj2 (configs_loop_ok_iff true cs l)) as [l1 H1].
  { apply (configs_loop_ok_iff false cs l). by eauto. }
  exists l1. split; [done|].
  destruct (configs_loop_lists _ _ _ _ H0) as (-> & -> & ->).
  destruct (configs_loop_lists _ _ _ _ H1) as (-> & -> & ->).
  split_and!; [done..| |].
  - by eapply environment_determined.
  - intros k. rewrite (configs_loop_labels_keys _ _ _ _ k H0),
      (configs_loop_labels_keys _ _ _ _ k H1).
    intros [?|[?|[Hf _]]]; [by left | by right; left | discriminate Hf].
Qed.

Lemma flag_only_labels_witness :
  ∃ l0 l1, configs_loop false Sample.entries init = Ok l0
           ∧ configs_loop true Sample.entries init = Ok l1
           ∧ ports l1 = ports l0 ∧ environment l1 = environment l0.
Proof.
  destruct (proj2 (configs_loop_ok_iff false Sample.entries init))
    as [l0 H0]; [apply Forall_entry_ok; vm_compute; reflexivity|].
  destruct (flag_only_labels _ _ _ H0) as (l1 & H1 & Hp & _ & _ & He & _).
  exists l0, l1. split_and!; [exact H0 | exact H1 | exact Hp | exact He].
Defined.

(** ** Entries without a target *)

Lemma extended_None (c : Element) (h : string) : extended c h !! None = None.
Proof.
  apply not_elem_of_dom. rewrite dom_extended, elem_of_list_to_set.
  unfold extended_keys. rewrite list_elem_of_fmap. by intros (s & ? & _).
Qed.

(** X10: an entry that has no [Target] attribute makes a [Port] entry
    raise [TypeError] and nothing else raise: a [Path] or [Devices] entry
    appends its value followed by [:None], and a [Variable] or [Label]
    entry stores its value under the key [None]. *)
Theorem missing_target (c : Element) (flag : bool) (l : locals)
    (h v : string) :
  header c = Ok h → value c = Ok v → get c "Target" = None →
  (get c "Type" = Some "Port" → config_step c flag l = Raise TypeError)
  ∧ (get c "Type" = Some "Path" →
       ∃ l', config_step c flag l = Ok l'
             ∧ volumes l'
               = volumes l ++ [(v +:+ ":None") +:+ mode_suffix (get c "Mode")])
  ∧ (get c "Type" = Some "Devices" →
       ∃ l', config_step c flag l = Ok l'
             ∧ devices l'
               = devices l ++ [(v +:+ ":None") +:+ mode_suffix (get c "Mode")])
  ∧ (get c "Type" = Some "Variable" →
       ∃ l', config_step c flag l = Ok l'
             ∧ environment l' !! None = Some (Some v))
  ∧ (get c "Type" = Some "Label" →
       ∃ l', config_step c flag l = Ok l'
             ∧ labels l' !! None = Some (Some v)).
Proof.
  intros Hh Hv Ht. rewrite (config_step_eq _ _ _ _ _ Hh Hv). split_and!.
  - intros HT. rewrite (place_Port _ _ _ HT). unfold port_item.
    by rewrite Ht.
  - intros HT. rewrite (place_Path _ _ _ HT). eexists. split; [done|].
    rewrite volumes_augment. simpl. by rewrite (mount_no_target _ _ Ht).
  - intros HT. rewrite (place_Devices _ _ _ HT). eexists. split; [done|].
    rewrite devices_augment. simpl. by rewrite (mount_no_target _ _ Ht).
  - intros HT. rewrite (place_Variable _ _ _ HT). eexists. split; [done|].
    rewrite environment_augment, Ht. simpl. apply lookup_insert_eq.
  - intros HT. rewrite (place_Label _ _ _ HT). eexists. split; [done|].
    rewrite Ht. unfold augment. destruct flag; simpl.
    + unfold update. rewrite lookup_union_r by apply extended_None.
      apply lookup_insert_eq.
    + apply lookup_insert_eq.
Qed.

Lemma missing_target_witness :
  config_step
    (Sample.entry [("Name", "P"); ("Default", "80"); ("Type", "Port")] None)
    false init = Raise TypeError
  ∧ ∃ l', config_step
            (Sample.entry [("Name", "D"); ("Default", "/d"); ("Type", "Path")]
               None) false init = Ok l'
          ∧ volumes l' = ["/d:None"].
Proof.
  split.
  - exact (proj1 (missing_target
             (Sample.entry [("Name", "P"); ("Default", "80"); ("Type", "Port")]
                None) false init "net.unraid.docker.config.P" "80"
             eq_refl eq_refl eq_refl) eq_refl).
  - exact (proj1 (proj2 (missing_target
             (Sample.entry [("Name", "D"); ("Default", "/d"); ("Type", "Path")]
                None) false init "net.unraid.docker.config.D" "/d"
             eq_refl eq_refl eq_refl)) eq_refl).
Defined.

(** ** The escaping of the value *)

Lemma even_dollars_double (s : string) :
  even_dollars false (double_dollars s) = true.
Proof.
  unfold double_dollars. induction s as [|c s IH]; [done|].
  cbn [subst_char]. destruct (Ascii.eqb c "$") eqn:Hc.
  - rewrite !append_cons, append_nil_l. by cbn.
  - cbn [even_dollars]. by rewrite Hc.
Qed.

Lemma double_dollars_inj (s t : string) :
  double_dollars s = double_dollars t → s = t.
Proof.
  unfold double_dollars. revert t.
  induction s as [|c s IH]; intros [|d t]; cbn [subst_char].
  - done.
  - destruct (Ascii.eqb d "$"); rewrite ?append_cons; discriminate.
  - destruct (Ascii.eqb c "$"); rewrite ?append_cons; discriminate.
  - destruct (Ascii.eqb c "$") eqn:Hc, (Ascii.eqb d "$") eqn:Hd;
      rewrite ?append_cons, ?append_nil_l.
    + apply Ascii.eqb_eq in Hc as ->. apply Ascii.eqb_eq in Hd as ->.
      intros [= H]. by rewrite (IH _ H).
    + apply Ascii.eqb_eq in Hc as ->. intros [= <- _].
      by rewrite Ascii.eqb_refl in Hd.
    + apply Ascii.eqb_eq in Hd as ->. intros [= -> _].
      by rewrite Ascii.eqb_refl in Hc.
    + intros [= -> H]. by rewrite (IH _ H).
Qed.

(** X11: in the value of an entry every run of ["$"] has an even length,
    so no ["$"] stands alone in it; and the escaping loses nothing: two
    entries with the same value have the same text, or default, to start
    with. *)
Theorem value_escaped (c c' : Element) (v : string) :
  value c = Ok v →
  even_dollars false v = true
  ∧ (value c' = Ok v → effective c' = effective c).
Proof.
  rewrite !value_eq. fold (effective c) (effective c').
  destruct (effective c) as [s|]; [|done]. intros [= <-].
  split; [apply even_dollars_double|].
  destruct (effective c') as [s'|]; [|done].
  intros [= H]. by rewrite (double_dollars_inj _ _ H).
Qed.

Lemma value_escaped_witness :
  even_dollars false "$$HOME" = true
  ∧ effective (Sample.entry [("Name", "H"); ("Default", "$HOME")] None)
    = effective Sample.variable_entry.
Proof.
  destruct (value_escaped Sample.variable_entry
              (Sample.entry [("Name", "H"); ("Default", "$HOME")] None)
              "$$HOME" eq_refl) as [He Hi].
  split; [exact He | exact (Hi eq_refl)].
Defined.

(** ** The prefix of the extended labels *)

Lemma has_space_app (s t : string) :
  has_space (s +:+ t) = has_space s || has_space t.
Proof.
  induction s as [|c s IH]; [done|].
  rewrite append_cons. cbn [has_space]. by rewrite IH, orb_assoc.
Qed.

Lemma has_space_underscores (s : string) : has_space (underscores s) = false.
Proof.
  unfold underscores. induction s as [|c s IH]; [done|].
  cbn [subst_char]. destruct (Ascii.eqb c " ") eqn:Hc.
  - by rewrite append_cons, append_nil_l.
  - cbn [has_space]. by rewrite Hc.
Qed.

Lemma length_underscores (s : string) :
  String.length (underscores s) = String.length s.
Proof.
  unfold underscores. induction s as [|c s IH]; [done|].
  cbn [subst_char]. destruct (Ascii.eqb c " ").
  - rewrite append_cons, append_nil_l. cbn [String.length]. by rewrite IH.
  - cbn [String.length]. by rewrite IH.
Qed.

Lemma length_app (s t : string) :
  String.length (s +:+ t) = (String.length s + String.length t)%nat.
Proof.
  induction s as [|c s IH]; [done|].
  rewrite append_cons. cbn [String.length]. by rewrite IH.
Qed.

(** X12: the header of an entry, the prefix of its five label keys, holds
    no space whatever the [Name], and is as long as the name and the
    twenty-five characters before it. *)
Theorem header_no_space (c : Element) (h : string) :
  header c = Ok h →
  has_space h = false
  ∧ ∃ name, get c "Name" = Some name
            ∧ String.length h = (25 + String.length name)%nat.
Proof.
  intros Hh. apply header_Ok in Hh as (name & Hn & ->). split.
  - by rewrite has_space_app, has_space_underscores.
  - exists name. split; [done|]. by rewrite length_app, length_underscores.
Qed.

Lemma header_no_space_witness :
  has_space "net.unraid.docker.config.Web_UI" = false.
Proof.
  exact (proj1 (header_no_space Sample.port_entry
                  "net.unraid.docker.config.Web_UI" eq_refl)).
Defined.

(** ** The path of the output *)

(** X13: [__init__] raises what the parser of the template raises, and
    otherwise keeps the tree and the flag; the path of the output is the
    one given or, when none is given, [docker-compose.yaml] with no
    directory before it, whatever the path of the template. *)
Theorem __init___yaml (parse : string → result Element)
    (template compose : string) (flag : bool) :
  match parse template with
  | Ok t =>
      __init__ parse template compose flag
      = Ok (mkUnDocker t
              (match compose with
               | "" => "docker-compose.yaml"
               | _ => compose
               end) flag)
  | Raise e => __init__ parse template compose flag = Raise e
  end.
Proof.
  unfold __init__. destruct (parse template) as [t|e]; [|done].
  by destruct compose.
Qed.

(** ** The file written *)


(** *** The order of the keys *)














(** A failing [open] leaves the files as they are. *)
Lemma compose_not_opened (safe_dump : Document.t → string)
    (open_raises : string → option exn) (self : UnDocker)
    (files : gmap string string) (e : exn) :
  open_raises (yaml self) = Some e →
  compose safe_dump open_raises self files = (Raise e, files).
Proof. intros H. unfold compose. by rewrite H. Qed.

(** * The entries in whole runs of [_configs] *)

(** A returning run read at one of its entries: the loop over the entries
    before it, its own turn, the loop over the entries after it. *)
Lemma _configs_Ok_split (self : UnDocker) (before after : list Element)
    (c : Element) (t : tuple5) :
  findall "Config" (tree self) = before ++ c :: after →
  _configs self = Ok t →
  ∃ l1 l2 l3,
    configs_loop (config_labels self) before init = Ok l1
    ∧ config_step c (config_labels self) l1 = Ok l2
    ∧ configs_loop (config_labels self) after l2 = Ok l3
    ∧ t = (ports l3, volumes l3, environment l3, labels l3, devices l3).
Proof.
  intros Hsplit H. rewrite _configs_eq, Hsplit, configs_loop_app in H.
  apply bind_Ok in H as (l3 & H & [= <-]).
  apply bind_Ok in H as (l1 & H1 & H). simpl in H.
  apply bind_Ok in H as (l2 & H2 & H3).
  by exists l1, l2, l3.
Qed.

(** The first entry whose turn raises ends the run with its exception. *)
Lemma _configs_Raise_at (self : UnDocker) (before after : list Element)
    (c : Element) (e : exn) (flag : bool) (l : locals) :
  findall "Config" (tree self) = before ++ c :: after →
  Forall (λ c, entry_ok c = true) before →
  config_step c flag l = Raise e →
  _configs self = Raise e.
Proof.
  intros Hsplit Hbefore Hstep.
  apply (configs_loop_ok_iff (config_labels self) before init) in Hbefore
    as [l1 Hl1].
  rewrite _configs_eq, Hsplit, configs_loop_app, Hl1. simpl.
  by rewrite (config_step_Raise _ _ _ _ (config_labels self) l1 Hstep).
Qed.

(** An entry whose turn raises leaves the run without a result. *)
Lemma _configs_raises_at (self : UnDocker) (before after : list Element)
    (c : Element) (e : exn) (flag : bool) (l : locals) :
  findall "Config" (tree self) = before ++ c :: after →
  config_step c flag l = Raise e →
  raises (_configs self).
Proof.
  intros Hsplit Hstep. rewrite _configs_eq. apply raises_bind.
  apply configs_loop_raises with (c := c).
  - rewrite Hsplit, elem_of_app, elem_of_cons. auto.
  - intros l0. exists e. exact (config_step_Raise _ _ _ _ _ l0 Hstep).
Qed.

(** A run returns when the entries around one whose turn returns are
    read without an exception. *)
Lemma _configs_returns_around (self : UnDocker) (before after : list Element)
    (c : Element) (flag : bool) (l l' : locals) :
  findall "Config" (tree self) = before ++ c :: after →
  config_step c flag l = Ok l' →
  Forall (λ c, entry_ok c = true) (before ++ after) →
  ∃ t, _configs self = Ok t.
Proof.
  intros Hsplit Hstep Hall. apply _configs_ok_iff. rewrite Hsplit.
  apply Forall_app in Hall as [Hb Ha]. apply Forall_app. split; [done|].
  constructor; [|done].
  apply (config_step_ok_iff c flag l). by eauto.
Qed.

(** C3: in a run of [_configs] over a template, an entry of type [Port]
    whose [Target] and effective value are integer literals gives the item
    of [int(Target)], [int(value)] and the mode, or the empty string
    without one: the ports the run returns are the items of the entries
    before it, this item, and the items of the entries after it, and the
    run returns whenever the other entries are read without an exception.
    When [Target] or the value is no integer literal the run returns no
    tuple: it raises, and what it raises is the [TypeError] or
    [ValueError] of the conversion when the entries before are read
    without an exception. *)
Theorem C3_port_entry (self : UnDocker) (before after : list Element)
    (c : Element) (h v : string) :
  findall "Config" (tree self) = before ++ c :: after →
  get c "Type" = Some "Port" → header c = Ok h → value c = Ok v →
  match Py.int (get c "Target"), Py.int (Some v) with
  | Ok t, Ok p =>
      (∀ ps vs env lbl ds,
         _configs self = Ok (ps, vs, env, lbl, ds) →
         ps = ports_of before
              ++ mkPort t p (default "" (get c "Mode")) :: ports_of after)
      ∧ (Forall (λ c, entry_ok c = true) (before ++ after) →
         ∃ vs env lbl ds,
           _configs self
           = Ok (ports_of before
                 ++ mkPort t p (default "" (get c "Mode")) :: ports_of after,
                 vs, env, lbl, ds))
  | Raise e, _ =>
      (e = TypeError ∨ e = ValueError)
      ∧ raises (_configs self)
      ∧ (Forall (λ c, entry_ok c = true) before → _configs self = Raise e)
  | Ok _, Raise e =>
      e = ValueError
      ∧ raises (_configs self)
      ∧ (Forall (λ c, entry_ok c = true) before → _configs self = Raise e)
  end.
Proof.
  intros Hsplit HT Hh Hv.
  pose proof (λ l, port_step c (config_labels self) l h v HT Hh Hv) as Hstep.
  revert Hstep.
  destruct (Py.int (get c "Target")) as [t|e];
    [destruct (Py.int (Some v)) as [p|e]|]; intros Hstep.
  - assert (∀ ps vs env lbl ds,
              _configs self = Ok (ps, vs, env, lbl, ds) →
              ps = ports_of before
                   ++ mkPort t p (default "" (get c "Mode")) :: ports_of after)
      as Hports.
    { intros ps vs env lbl ds H.
      destruct (_configs_Ok_split _ _ _ _ _ Hsplit H)
        as (l1 & l2 & l3 & H1 & H2 & H3 & [= -> _ _ _ _]).
      destruct (Hstep l1) as (l2' & H2' & Hp2).
      rewrite H2 in H2'. injection H2' as <-.
      destruct (configs_loop_lists _ _ _ _ H1) as (Hp1 & _).
      destruct (configs_loop_lists _ _ _ _ H3) as (-> & _).
      rewrite Hp2, Hp1. simpl. by rewrite <- app_assoc. }
    split; [exact Hports|]. intros Hall.
    destruct (Hstep init) as (l' & Hl' & _).
    destruct (_configs_returns_around _ _ _ _ _ _ _ Hsplit Hl' Hall)
      as [[[[[ps vs] env] lbl] ds] H].
    exists vs, env, lbl, ds. by rewrite H, (Hports _ _ _ _ _ H).
  - destruct (Hstep init) as [Hr ->]. split_and!; [done| |].
    + exact (_configs_raises_at _ _ _ _ _ _ _ Hsplit Hr).
    + intros Hb. exact (_configs_Raise_at _ _ _ _ _ _ _ Hsplit Hb Hr).
  - destruct (Hstep init) as [Hr He]. split_and!; [done| |].
    + exact (_configs_raises_at _ _ _ _ _ _ _ Hsplit Hr).
    + intros Hb. exact (_configs_Raise_at _ _ _ _ _ _ _ Hsplit Hb Hr).
Qed.

Lemma C3_port_entry_witness :
  (∃ vs env lbl ds,
     _configs (Sample.template (Sample.path_entry :: Sample.entries) true)
     = Ok ([mkPort 8080 8081 "tcp"], vs, env, lbl, ds))
  ∧ _configs (Sample.template
                [Sample.path_entry; Sample.bad_port_entry; Sample.port_entry]
                false)
    = Raise ValueError.
Proof.
  split.
  - refine (proj2 (C3_port_entry
               (Sample.template (Sample.path_entry :: Sample.entries) true)
               [Sample.path_entry]
               [Sample.path_entry; Sample.device_entry; Sample.variable_entry;
                Sample.label_entry; Sample.other_entry]
               Sample.port_entry "net.unraid.docker.config.Web_UI" "8081"
               eq_refl eq_refl eq_refl eq_refl) _).
    apply Forall_entry_ok. vm_compute. reflexivity.
  - refine (proj2 (proj2 (C3_port_entry
               (Sample.template
                  [Sample.path_entry; Sample.bad_port_entry; Sample.port_entry]
                  false)
               [Sample.path_entry] [Sample.port_entry]
               Sample.bad_port_entry "net.unraid.docker.config.Admin" "80"
               eq_refl eq_refl eq_refl eq_refl)) _).
    apply Forall_entry_ok. vm_compute. reflexivity.
Defined.

(** C5: in a run of [_configs] over a template, an entry of type [Path]
    gives the string [value:Target] to the volumes and one of type
    [Devices] gives it to the devices: the list the run returns holds the
    strings of the entries before it, this string, and the strings of the
    entries after it, the other list holds nothing of the entry, and the
    run returns whenever the other entries are read without an exception.
    [:Mode] follows the target only when there is a mode, so without one
    the string ends with the target. *)
Theorem C5_mount_entry (self : UnDocker) (before after : list Element)
    (c : Element) (h v tg : string) :
  findall "Config" (tree self) = before ++ c :: after →
  header c = Ok h → value c = Ok v → get c "Target" = Some tg →
  let spec := (v +:+ ":" +:+ tg) +:+ mode_suffix (get c "Mode") in
  (get c "Type" = Some "Path" →
     (∀ ps vs env lbl ds,
        _configs self = Ok (ps, vs, env, lbl, ds) →
        vs = mounts_of "Path" before ++ spec :: mounts_of "Path" after
        ∧ ds = mounts_of "Devices" before ++ mounts_of "Devices" after)
     ∧ (Forall (λ c, entry_ok c = true) (before ++ after) →
        ∃ ps env lbl,
          _configs self
          = Ok (ps, mounts_of "Path" before ++ spec :: mounts_of "Path" after,
                env, lbl,
                mounts_of "Devices" before ++ mounts_of "Devices" after)))
  ∧ (get c "Type" = Some "Devices" →
     (∀ ps vs env lbl ds,
        _configs self = Ok (ps, vs, env, lbl, ds) →
        ds = mounts_of "Devices" before ++ spec :: mounts_of "Devices" after
        ∧ vs = mounts_of "Path" before ++ mounts_of "Path" after)
     ∧ (Forall (λ c, entry_ok c = true) (before ++ after) →
        ∃ ps env lbl,
          _configs self
          = Ok (ps, mounts_of "Path" before ++ mounts_of "Path" after,
                env, lbl,
                mounts_of "Devices" before
                ++ spec :: mounts_of "Devices" after)))
  ∧ (get c "Mode" = None → spec = v +:+ ":" +:+ tg)
  ∧ (∀ m, get c "Mode" = Some m → m ≠ "" →
          spec = (v +:+ ":" +:+ tg) +:+ ":" +:+ m).
Proof.
  intros Hsplit Hh Hv Ht spec.
  pose proof (λ l, mount_step c (config_labels self) l h v tg Hh Hv Ht)
    as Hstep.
  fold spec in Hstep.
  assert (∀ ps vs env lbl ds,
            _configs self = Ok (ps, vs, env, lbl, ds) →
            ∃ l1 l2,
              config_step c (config_labels self) l1 = Ok l2
              ∧ volumes l1 = mounts_of "Path" before
              ∧ devices l1 = mounts_of "Devices" before
              ∧ vs = volumes l2 ++ mounts_of "Path" after
              ∧ ds = devices l2 ++ mounts_of "Devices" after) as Hrun.
  { intros ps vs env lbl ds H.
    destruct (_configs_Ok_split _ _ _ _ _ Hsplit H)
      as (l1 & l2 & l3 & H1 & H2 & H3 & [= _ -> _ _ ->]).
    destruct (configs_loop_lists _ _ _ _ H1) as (_ & Hv1 & Hd1).
    destruct (configs_loop_lists _ _ _ _ H3) as (_ & Hv3 & Hd3).
    by exists l1, l2. }
  split_and!.
  - intros HT.
    assert (∀ ps vs env lbl ds,
              _configs self = Ok (ps, vs, env, lbl, ds) →
              vs = mounts_of "Path" before ++ spec :: mounts_of "Path" after
              ∧ ds = mounts_of "Devices" before ++ mounts_of "Devices" after)
      as Hlists.
    { intros ps vs env lbl ds H.
      destruct (Hrun _ _ _ _ _ H) as (l1 & l2 & H2 & Hv1 & Hd1 & -> & ->).
      destruct (proj1 (Hstep l1) HT) as (l2' & H2' & Hv2 & Hd2).
      rewrite H2 in H2'. injection H2' as <-.
      rewrite Hv2, Hd2, Hv1, Hd1. by rewrite <- app_assoc. }
    split; [exact Hlists|]. intros Hall.
    destruct (proj1 (Hstep init) HT) as (l' & Hl' & _).
    destruct (_configs_returns_around _ _ _ _ _ _ _ Hsplit Hl' Hall)
      as [[[[[ps vs] env] lbl] ds] H].
    exists ps, env, lbl. rewrite H.
    by destruct (Hlists _ _ _ _ _ H) as [-> ->].
  - intros HT.
    assert (∀ ps vs env lbl ds,
              _configs self = Ok (ps, vs, env, lbl, ds) →
              ds = mounts_of "Devices" before
                   ++ spec :: mounts_of "Devices" after
              ∧ vs = mounts_of "Path" before ++ mounts_of "Path" after)
      as Hlists.
    { intros ps vs env lbl ds H.
      destruct (Hrun _ _ _ _ _ H) as (l1 & l2 & H2 & Hv1 & Hd1 & -> & ->).
      destruct (proj1 (proj2 (Hstep l1)) HT) as (l2' & H2' & Hd2 & Hv2).
      rewrite H2 in H2'. injection H2' as <-.
      rewrite Hv2, Hd2, Hv1, Hd1. by rewrite <- app_assoc. }
    split; [exact Hlists|]. intros Hall.
    destruct (proj1 (proj2 (Hstep init)) HT) as (l' & Hl' & _).
    destruct (_configs_returns_around _ _ _ _ _ _ _ Hsplit Hl' Hall)
      as [[[[[ps vs] env] lbl] ds] H].
    exists ps, env, lbl. rewrite H.
    by destruct (Hlists _ _ _ _ _ H) as [-> ->].
  - exact (proj1 (proj2 (proj2 (Hstep init)))).
  - exact (proj2 (proj2 (proj2 (Hstep init)))).
Qed.

Lemma C5_mount_entry_witness :
  (∃ ps env lbl,
     _configs (Sample.template Sample.entries false)
     = Ok (ps, ["/data:/data"], env, lbl, ["/dev/dri:/dev/dri:rwm"]))
  ∧ (∃ ps env lbl,
       _configs (Sample.template (Sample.device_entry :: Sample.entries) true)
       = Ok (ps, ["/data:/data"], env, lbl,
             ["/dev/dri:/dev/dri:rwm"; "/dev/dri:/dev/dri:rwm"])).
Proof.
  split.
  - refine (proj2 (proj1 (C5_mount_entry
               (Sample.template Sample.entries false)
               [Sample.port_entry]
               [Sample.device_entry; Sample.variable_entry;
                Sample.label_entry; Sample.other_entry]
               Sample.path_entry "net.unraid.docker.config.Data"
               "/data" "/data" eq_refl eq_refl eq_refl eq_refl) eq_refl) _).
    apply Forall_entry_ok. vm_compute. reflexivity.
  - refine (proj2 (proj1 (proj2 (C5_mount_entry
               (Sample.template (Sample.device_entry :: Sample.entries) true)
               [Sample.device_entry; Sample.port_entry; Sample.path_entry]
               [Sample.variable_entry; Sample.label_entry; Sample.other_entry]
               Sample.device_entry "net.unraid.docker.config.GPU"
               "/dev/dri" "/dev/dri" eq_refl eq_refl eq_refl eq_refl))
                      eq_refl) _).
    apply Forall_entry_ok. vm_compute. reflexivity.
Defined.

(** The five items of the dictionary of lines 166 to 172. *)
Lemma extended_lookup (c : Element) (h suffix attribute : string) :
  (suffix, attribute) ∈ extended_attributes →
  extended c h !! Some (h +:+ suffix) = Some (get c attribute).
Proof.
  unfold extended_attributes. rewrite !elem_of_cons, elem_of_nil.
  intros [[= -> ->]|[[= -> ->]|[[= -> ->]|[[= -> ->]|[[= -> ->]|[]]]]]].
  - apply extended_default.
  - apply extended_description.
  - apply extended_display.
  - apply extended_required.
  - apply extended_mask.
Qed.

Lemma writes_label_false (c : Element) (k : option string) (h : string) :
  writes_label c k = false → header c = Ok h →
  ¬ (get c "Type" = Some "Label" ∧ get c "Target" = k)
  ∧ k ∉ extended_keys h.
Proof.
  unfold writes_label. intros [H1 H2]%orb_false_elim Hh.
  apply header_Ok in Hh as (name & Hn & ->). rewrite Hn in H2.
  apply bool_decide_eq_false in H2. split; [|done].
  intros [HT Hk]. apply is_str_true in HT. rewrite HT in H1. simpl in H1.
  by apply bool_decide_eq_false in H1.
Qed.

(** The entries that store nothing under the key [k] leave the label
    under [k] as it is. *)
Lemma labels_kept (flag : bool) (cs : list Element) (l l' : locals)
    (k : option string) :
  configs_loop flag cs l = Ok l' →
  Forall (λ c, writes_label c k = false) cs →
  labels l' !! k = labels l !! k.
Proof.
  revert l. induction cs as [|c cs IH]; intros l H Hcs; simpl in H.
  - by injection H as <-.
  - apply bind_Ok in H as (l1 & H1 & H).
    apply Forall_cons in Hcs as [Hc Hcs]. rewrite (IH _ H Hcs).
    apply labels_step in H1 as (h & v & Hh & _ & ->).
    destruct (writes_label_false _ _ _ Hc Hh) as [Hlabel Hkeys].
    assert ((if is_str (get c "Type") "Label"
             then setitem (get c "Target") (Some v) (labels l)
             else labels l) !! k = labels l !! k) as Hplace.
    { destruct (is_str (get c "Type") "Label") eqn:HT; [|done].
      apply is_str_true in HT. unfold setitem.
      apply lookup_insert_ne. intros Hk. by apply Hlabel. }
    destruct flag; [|done]. unfold update.
    rewrite lookup_union_r; [done|].
    apply not_elem_of_dom. rewrite dom_extended.
    by rewrite elem_of_list_to_set.
Qed.

(** C7: under the flag, every entry of the template, whatever its type,
    has a name and gives the labels [_configs] returns its five keys,
    [net.unraid.docker.config.<name>] with underscores for the spaces of
    the name and one of [.default], [.description], [.display],
    [.required], [.mask] after it; the five keys differ, each holds the
    attribute of its suffix as [get] gives it unless an entry further down
    stores something under that very key, and the labels have no key but
    these and the targets of the [Label] entries.  Without the flag the
    keys of the labels are the targets of the [Label] entries and nothing
    else. *)
Theorem C7_extended_labels (self : UnDocker) (ps : list port)
    (vs ds : list string) (env lbl : dict) :
  _configs self = Ok (ps, vs, env, lbl, ds) →
  if config_labels self
  then
    (∀ before c after,
       findall "Config" (tree self) = before ++ c :: after →
       ∃ name,
         get c "Name" = Some name
         ∧ let h := "net.unraid.docker.config." +:+ underscores name in
           extended_keys h
           = (λ item, Some (h +:+ item.1)) <$> extended_attributes
           ∧ NoDup (extended_keys h)
           ∧ length (extended_keys h) = 5%nat
           ∧ (∀ k, k ∈ extended_keys h → k ∈ dom lbl)
           ∧ (∀ suffix attribute,
                (suffix, attribute) ∈ extended_attributes →
                Forall (λ c', writes_label c' (Some (h +:+ suffix)) = false)
                  after →
                lbl !! Some (h +:+ suffix) = Some (get c attribute)))
    ∧ (∀ k,
         k ∈ dom lbl
         ↔ (∃ c, c ∈ findall "Config" (tree self)
                 ∧ get c "Type" = Some "Label" ∧ get c "Target" = k)
           ∨ (∃ c name, c ∈ findall "Config" (tree self)
                 ∧ get c "Name" = Some name
                 ∧ k ∈ extended_keys
                         ("net.unraid.docker.config." +:+ underscores name)))
  else
    ∀ k,
      k ∈ dom lbl
      ↔ ∃ c, c ∈ findall "Config" (tree self)
             ∧ get c "Type" = Some "Label" ∧ get c "Target" = k.
Proof.
  intros H.
  assert (∃ l, configs_loop (config_labels self)
                 (findall "Config" (tree self)) init = Ok l
               ∧ lbl = labels l) as (l & Hl & Hlbl).
  { rewrite _configs_eq in H.
    apply bind_Ok in H as (l & Hl & [= _ _ _ <- _]). by exists l. }
  pose proof (λ k, configs_loop_labels_keys _ _ _ _ k Hl) as Hdom.
  rewrite <- Hlbl in Hdom. simpl in Hdom.
  destruct (config_labels self) eqn:Hflag.
  - split.
    + intros before c after Hsplit.
      destruct (_configs_Ok_split _ _ _ _ _ Hsplit H)
        as (l1 & l2 & l3 & H1 & H2 & H3 & [= _ _ _ Hl3 _]).
      rewrite Hflag in H2, H3.
      apply labels_step in H2 as (h & v & Hh & _ & Hl2).
      apply header_Ok in Hh as (name & Hn & ->).
      exists name. split; [done|]. split_and!.
      * reflexivity.
      * apply NoDup_extended_keys.
      * reflexivity.
      * intros k Hk. apply Hdom. right; right. split; [done|].
        exists c, name. split_and!; [|done..].
        rewrite Hsplit, elem_of_app, elem_of_cons. auto.
      * intros suffix attribute Hin Hafter.
        rewrite Hl3, (labels_kept _ _ _ _ _ H3 Hafter), Hl2.
        unfold update. apply lookup_union_Some_l.
        by apply extended_lookup.
    + intros k. rewrite Hdom, dom_empty_L. split.
      * intros [Hk|[Hc|[_ Hc]]]; [by apply elem_of_empty in Hk|by left|by right].
      * intros [Hc|Hc]; [right; by left | right; right; by split].
  - intros k. rewrite Hdom, dom_empty_L. split.
    + intros [Hk|[Hc|[Hf _]]];
        [by apply elem_of_empty in Hk | done | discriminate Hf].
    + intros Hc. right; by left.
Qed.

Lemma C7_extended_labels_witness :
  (∃ ps vs env lbl ds,
     _configs (Sample.template Sample.entries true)
     = Ok (ps, vs, env, lbl, ds)
     ∧ lbl !! Some "net.unraid.docker.config.Note.default" = Some (Some "d")
     ∧ lbl !! Some "net.unraid.docker.config.Note.description"
       = Some (Some "A note")
     ∧ lbl !! Some "net.unraid.docker.config.Note.mask" = Some None)
  ∧ (∃ ps vs env lbl ds,
       _configs (Sample.template Sample.entries false)
       = Ok (ps, vs, env, lbl, ds)
       ∧ Some "tier" ∈ dom lbl
       ∧ Some "net.unraid.docker.config.Note.default" ∉ dom lbl).
Proof.
  split.
  - destruct (proj2 (_configs_ok_iff (Sample.template Sample.entries true)))
      as [[[[[ps vs] env] lbl] ds] H];
      [apply Forall_entry_ok; vm_compute; reflexivity|].
    exists ps, vs, env, lbl, ds. split; [exact H|].
    destruct (C7_extended_labels _ _ _ _ _ _ H) as [Hentry _].
    destruct (Hentry
                [Sample.port_entry; Sample.path_entry; Sample.device_entry;
                 Sample.variable_entry; Sample.label_entry]
                Sample.other_entry [] eq_refl)
      as (name & Hn & _ & _ & _ & _ & Hvalue).
    vm_compute in Hn. injection Hn as <-.
    split_and!.
    + refine (Hvalue ".default" "Default" _ (Forall_nil_2 _)).
      unfold extended_attributes. rewrite !elem_of_cons. tauto.
    + refine (Hvalue ".description" "Description" _ (Forall_nil_2 _)).
      unfold extended_attributes. rewrite !elem_of_cons. tauto.
    + refine (Hvalue ".mask" "Mask" _ (Forall_nil_2 _)).
      unfold extended_attributes. rewrite !elem_of_cons. tauto.
  - destruct (proj2 (_configs_ok_iff (Sample.template Sample.entries false)))
      as [[[[[ps vs] env] lbl] ds] H];
      [apply Forall_entry_ok; vm_compute; reflexivity|].
    exists ps, vs, env, lbl, ds. split; [exact H|].
    pose proof (C7_extended_labels _ _ _ _ _ _ H) as Hdom.
    change (∀ k, k ∈ dom lbl
                 ↔ ∃ c, c ∈ Sample.entries
                        ∧ get c "Type" = Some "Label" ∧ get c "Target" = k)
      in Hdom.
    split.
    + apply Hdom. exists Sample.label_entry. split_and!; [|reflexivity..].
      unfold Sample.entries. rewrite !elem_of_cons. tauto.
    + rewrite Hdom.
      assert (Forall (λ c, ¬ (get c "Type" = Some "Label"
                              ∧ get c "Target"
                                = Some "net.unraid.docker.config.Note.default"))
                Sample.entries) as Hnone by decide_by_vm.
      intros (c & Hc & HT & Hk).
      rewrite Forall_forall in Hnone. exact (Hnone c Hc (conj HT Hk)).
Defined.
